(** * SMAP2 grading engine: a shallow embedding of [src/utils.ts]

    The development follows the pipeline of the source file:
    [getGradeFromZScore], the contributing-score rule shared by
    [calculateClassStatistics] and [processStudentData], the per-student
    processing with its best-six aggregate, category and remark assembly, the
    final ranking, and [calculateFacilitatorStats].  Around it come the mean
    of [calculateMean], the daycare bands of [getDaycareGrade], the score
    entry of [components/ScoreEntry.tsx], which writes the scores that the
    pipeline reads, and the class average that [App.tsx] derives from the
    ranked records.

    Numbers.  A JavaScript [number] that holds a finite value is modelled by
    an exact rational of [Q]; arithmetic is exact, so the rounding error of
    binary64, overflow and the infinities are outside the model.  A statistic
    read from a map that has no entry for the subject is [undefined], which
    behaves as [NaN] in arithmetic and makes every comparison false: such a
    number is an [option Q] with [None] for [NaN].  Grade values, which the
    source only ever writes as the integer literals 1..9, and counters are
    integers.

    Strings are sequences of 8-bit code units (the Latin-1 range). *)

From Stdlib Require Import QArith Qround ZArith Lia Lqa List String Ascii Sorting.Permutation Sorting.Sorted.
From stdpp Require Import gmap strings list fin_maps sorting.

Local Open Scope string_scope.
Local Open Scope Z_scope.

(** ** JavaScript numbers *)

Module JS.

(** A number that may be [NaN] (or [undefined] coerced to a number). *)
Definition num : Type := option Q.

Definition fin (q : Q) : num := Some q.
Definition NaN : num := None.

Definition sub (a b : num) : num :=
  match a, b with Some x, Some y => Some (x - y)%Q | _, _ => None end.

Definition mul (a b : num) : num :=
  match a, b with Some x, Some y => Some (x * y)%Q | _, _ => None end.

(** [a / b] for a divisor known to be non-zero. *)
Definition div (a b : num) : num :=
  match a, b with Some x, Some y => Some (x / y)%Q | _, _ => None end.

(** [a >= b]: false as soon as one side is [NaN]. *)
Definition ge (a b : num) : bool :=
  match a, b with Some x, Some y => Qle_bool y x | _, _ => false end.

(** [a === b] on numbers: [NaN] equals nothing. *)
Definition eqb (a b : num) : bool :=
  match a, b with Some x, Some y => Qeq_bool x y | _, _ => false end.

(** [Math.round]: the nearest integer, halves going up. *)
Definition Math_round (x : Q) : Q := inject_Z (Qfloor (x + (1 # 2))%Q).

(** [x || d] for a number that may be absent: [undefined] and [0] are both
    falsy. *)
Definition num_or (x : option Q) (d : Q) : Q :=
  match x with
  | Some q => if Qeq_bool q 0 then d else q
  | None => d
  end.

(** [s || d] for a string that may be absent: [undefined] and the empty
    string are both falsy. *)
Definition str_or (s : option string) (d : string) : string :=
  match s with
  | Some "" => d
  | Some t => t
  | None => d
  end.

(** Truthiness of an optional string. *)
Definition truthy (s : option string) : bool :=
  match s with
  | Some "" => false
  | Some _ => true
  | None => false
  end.

(** White space of [String.prototype.trim] among the code units below 256:
    TAB, LF, VT, FF, CR, SPACE and NBSP. *)
Definition is_white (c : ascii) : bool :=
  let n := nat_of_ascii c in
  ((9 <=? n)%nat && (n <=? 13)%nat) || (n =? 32)%nat || (n =? 160)%nat.

Fixpoint trim_start (s : string) : string :=
  match s with
  | String c r => if is_white c then trim_start r else s
  | EmptyString => EmptyString
  end.

Fixpoint rev_string (s acc : string) : string :=
  match s with
  | String c r => rev_string r (String c acc)
  | EmptyString => acc
  end.

Definition trim_end (s : string) : string :=
  rev_string (trim_start (rev_string s "")) "".

Definition trim (s : string) : string := trim_end (trim_start s).

(** [Array.prototype.join]. *)
Fixpoint join (sep : string) (l : list string) : string :=
  match l with
  | [] => ""
  | [x] => x
  | x :: r => x ++ sep ++ join sep r
  end.

(** [Array.prototype.sort] with a comparator.  The sort is stable, and for
    a consistent comparator its result is the stable sorted arrangement;
    this is the insertion sort that produces it.  A later element moves in
    front of an earlier one only when the comparator is positive on the pair
    (earlier, later). *)
Section Sort.
Context {A : Type} (cmp : A -> A -> Q).

Definition before (a b : A) : bool := Qle_bool (cmp a b) 0.

Fixpoint insert_sorted (x : A) (l : list A) : list A :=
  match l with
  | [] => [x]
  | y :: r => if before x y then x :: y :: r else y :: insert_sorted x r
  end.

Fixpoint sort (l : list A) : list A :=
  match l with
  | [] => []
  | x :: r => insert_sorted x (sort r)
  end.
End Sort.

(** [Array.prototype.slice(0, n)]. *)
Definition slice0 {A : Type} (n : nat) (l : list A) : list A := firstn n l.

End JS.

(** ** Grade bands *)

Record GradeResult := mkGrade {
  gr_grade : string;
  gr_value : Z;
  gr_category : string
}.

(** [remarksMap[k] || d] *)
Definition remark_or (remarksMap : gmap string string) (k d : string) : string :=
  JS.str_or (remarksMap !! k) d.

Definition getGradeFromZScore (score : Q) (mean stdDev : JS.num)
    (remarksMap : gmap string string) : GradeResult :=
  if JS.eqb stdDev (JS.fin 0) then mkGrade "C4" 4 (remark_or remarksMap "C4" "Credit") else
  let diff := JS.sub (JS.fin score) mean in
  if JS.ge diff (JS.mul (JS.fin (1645 # 1000)) stdDev)
  then mkGrade "A1" 1 (remark_or remarksMap "A1" "Excellent") else
  if JS.ge diff (JS.mul (JS.fin (1036 # 1000)) stdDev)
  then mkGrade "B2" 2 (remark_or remarksMap "B2" "Very Good") else
  if JS.ge diff (JS.mul (JS.fin (524 # 1000)) stdDev)
  then mkGrade "B3" 3 (remark_or remarksMap "B3" "Good") else
  if JS.ge diff (JS.fin 0)
  then mkGrade "C4" 4 (remark_or remarksMap "C4" "Credit") else
  if JS.ge diff (JS.mul (JS.fin (- 524 # 1000)) stdDev)
  then mkGrade "C5" 5 (remark_or remarksMap "C5" "Credit") else
  if JS.ge diff (JS.mul (JS.fin (- 1036 # 1000)) stdDev)
  then mkGrade "C6" 6 (remark_or remarksMap "C6" "Credit") else
  if JS.ge diff (JS.mul (JS.fin (- 1645 # 1000)) stdDev)
  then mkGrade "D7" 7 (remark_or remarksMap "D7" "Pass") else
  if JS.ge diff (JS.mul (JS.fin (- 2326 # 1000)) stdDev)
  then mkGrade "E8" 8 (remark_or remarksMap "E8" "Pass") else
  mkGrade "F9" 9 (remark_or remarksMap "F9" "Fail").

(** [generateSubjectRemark]: the descriptive remark of a score. *)
Definition generateSubjectRemark (score : Q) : string :=
  if Qle_bool 90 score then "Outstanding mastery of subject concepts." else
  if Qle_bool 80 score then "Excellent performance, shows great potential." else
  if Qle_bool 70 score then "Very Good. Consistent effort displayed." else
  if Qle_bool 60 score then "Good. Capable of achieving higher grades." else
  if Qle_bool 55 score then "Credit. Satisfactory understanding shown." else
  if Qle_bool 50 score then "Pass. Needs more dedication to studies." else
  if Qle_bool 40 score then "Weak Pass. Remedial support recommended." else
  "Critical Failure. Immediate intervention required.".

(** ** Data model *)

Module ScoreDetail.
Record t := mk {
  sectionA : Q;
  sectionB : Q;
  total : Q
}.
End ScoreDetail.

(** The pass-through fields are declared in [types.ts], which is not among
    the sources; the code only copies them, and they are optional texts
    here.  The entries of [subjectRemarks] are kept in the order in which
    [Object.entries] lists them. *)
Module StudentData.
Record t := mk {
  id : Z;
  name : string;
  scores : gmap string Q;
  scoreDetails : option (gmap string ScoreDetail.t);
  subjectRemarks : option (list (string * string));
  finalRemark : option string;
  overallRemark : option string;
  recommendation : option string;
  attendance : option string;
  age : option string;
  promotedTo : option string;
  conduct : option string;
  interest : option string;
  skills : option string
}.
End StudentData.

Module ClassStatistics.
Record t := mk {
  subjectMeans : gmap string Q;
  subjectStdDevs : gmap string Q
}.
End ClassStatistics.

Module StaffMember.
Record t := mk {
  name : string;
  subjects : option (list string)
}.
End StaffMember.

Module ComputedSubject.
Record t := mk {
  subject : string;
  score : Q;
  grade : string;
  gradeValue : Z;
  remark : string;
  facilitator : string;
  zScore : JS.num
}.
End ComputedSubject.

Module ProcessedStudent.
Record t := mk {
  id : Z;
  name : string;
  subjects : list ComputedSubject.t;
  totalScore : Q;
  bestSixAggregate : Z;
  bestCoreSubjects : list ComputedSubject.t;
  bestElectiveSubjects : list ComputedSubject.t;
  overallRemark : string;
  recommendation : string;
  weaknessAnalysis : string;
  category : string;
  rank : Z;
  attendance : string;
  age : option string;
  promotedTo : option string;
  conduct : option string;
  interest : option string;
  skills : option string
}.

(** The assignment [p.rank = r]. *)
Definition set_rank (p : t) (r : Z) : t :=
  mk (id p) (name p) (subjects p) (totalScore p) (bestSixAggregate p)
     (bestCoreSubjects p) (bestElectiveSubjects p) (overallRemark p)
     (recommendation p) (weaknessAnalysis p) (category p) r (attendance p)
     (age p) (promotedTo p) (conduct p) (interest p) (skills p).
End ProcessedStudent.

Module FacilitatorStats.
Record t := mk {
  facilitatorName : string;
  subject : string;
  studentCount : Z;
  gradeCounts : gmap string Z;
  totalGradeValue : Z;
  performancePercentage : Q;
  averageGradeValue : Q;
  performanceGrade : string
}.
End FacilitatorStats.

(** ** The statistics pass *)

(** [s.scoreDetails?.['Science']] *)
Definition scienceDetails (s : StudentData.t) : option ScoreDetail.t :=
  match StudentData.scoreDetails s with
  | Some d => d !! "Science"
  | None => None
  end.

(** The callback of [students.map] in [calculateClassStatistics]: the score
    a student contributes to the statistics of a subject. *)
Definition statisticsScore (scienceBaseScore : Q) (subject : string)
    (s : StudentData.t) : Q :=
  match (if String.eqb subject "Science" then scienceDetails s else None) with
  | Some det =>
      let rawSum := (ScoreDetail.sectionA det + ScoreDetail.sectionB det)%Q in
      if Qeq_bool scienceBaseScore 140
      then JS.Math_round ((rawSum / 140) * 100)%Q
      else JS.Math_round rawSum
  | None => JS.num_or (StudentData.scores s !! subject) 0
  end.

(** [calculateMean] *)
Definition calculateMean (values : list Q) : Q :=
  match values with
  | [] => 0
  | _ => (fold_left Qplus values 0 / inject_Z (Z.of_nat (length values)))%Q
  end.

(** The [scores] array and the mean that [calculateClassStatistics] derives
    for a subject.  The standard deviation takes a square root, which has no
    exact rational value; the statistics are an argument of
    [processStudentData] and stay arbitrary there. *)
Definition classScores (students : list StudentData.t) (scienceBaseScore : Q)
    (subject : string) : list Q :=
  map (statisticsScore scienceBaseScore subject) students.

Definition classMean (students : list StudentData.t) (scienceBaseScore : Q)
    (subject : string) : Q :=
  calculateMean (classScores students scienceBaseScore subject).

(** ** The per-student pass *)

(** The score [processStudentData] uses for a subject: the flat score, then
    overwritten for Science when a breakdown exists. *)
Definition studentScore (scienceBaseScore : Q) (subject : string)
    (student : StudentData.t) : Q :=
  let score := JS.num_or (StudentData.scores student !! subject) 0 in
  match (if String.eqb subject "Science" then scienceDetails student else None) with
  | Some det =>
      let rawSum := (ScoreDetail.sectionA det + ScoreDetail.sectionB det)%Q in
      if Qeq_bool scienceBaseScore 140
      then JS.Math_round ((rawSum / 140) * 100)%Q
      else JS.Math_round rawSum
  | None => score
  end.

(** [staffList.find(s => s.subjects && s.subjects.includes(subject))] *)
Definition teaches (subject : string) (s : StaffMember.t) : bool :=
  match StaffMember.subjects s with
  | Some l => existsb (String.eqb subject) l
  | None => false
  end.

Definition facilitatorOf (staffList : list StaffMember.t)
    (facilitatorMap : gmap string string) (subject : string) : string :=
  match List.find (teaches subject) staffList with
  | Some staff => StaffMember.name staff
  | None => JS.str_or (facilitatorMap !! subject) "TBA"
  end.

(** The entry pushed on [computedSubjects] for one subject. *)
Definition computeSubject (stats : ClassStatistics.t)
    (facilitatorMap : gmap string string) (gradingRemarks : gmap string string)
    (staffList : list StaffMember.t) (scienceBaseScore : Q)
    (student : StudentData.t) (subject : string) : ComputedSubject.t :=
  let score := studentScore scienceBaseScore subject student in
  let mean : JS.num := ClassStatistics.subjectMeans stats !! subject in
  let stdDev : JS.num := ClassStatistics.subjectStdDevs stats !! subject in
  let g := getGradeFromZScore score mean stdDev gradingRemarks in
  ComputedSubject.mk subject score (gr_grade g) (gr_value g)
    (generateSubjectRemark score)
    (facilitatorOf staffList facilitatorMap subject)
    (if JS.eqb stdDev (JS.fin 0) then JS.fin 0
     else JS.div (JS.sub (JS.fin score) mean) stdDev).

(** The body of [subjectList.forEach]: the running total and the array of
    computed subjects after one more subject. *)
Definition subjectStep (stats : ClassStatistics.t)
    (facilitatorMap gradingRemarks : gmap string string)
    (staffList : list StaffMember.t) (scienceBaseScore : Q)
    (student : StudentData.t)
    (acc : Q * list ComputedSubject.t) (subject : string)
    : Q * list ComputedSubject.t :=
  let c := computeSubject stats facilitatorMap gradingRemarks staffList
             scienceBaseScore student subject in
  ((fst acc + ComputedSubject.score c)%Q, (snd acc ++ [c])%list).

(** [sortFn]: by grade value, the better grade first, then by score, the
    higher score first. *)
Definition sortFn (a b : ComputedSubject.t) : Q :=
  if negb (ComputedSubject.gradeValue a =? ComputedSubject.gradeValue b)
  then inject_Z (ComputedSubject.gradeValue a - ComputedSubject.gradeValue b)
  else (ComputedSubject.score b - ComputedSubject.score a)%Q.

(** [l.reduce((sum, s) => sum + s.gradeValue, 0)] *)
Definition sumGradeValues (l : list ComputedSubject.t) : Z :=
  fold_left (fun sum s => sum + ComputedSubject.gradeValue s) l 0.

Definition categoryOf (bestSixAggregate : Z) : string :=
  let category := "Average" in
  if bestSixAggregate <=? 10 then "Distinction"
  else if bestSixAggregate <=? 20 then "Merit"
  else if bestSixAggregate <=? 36 then "Pass"
  else "Fail".

Definition isWeak (s : ComputedSubject.t) : bool :=
  7 <=? ComputedSubject.gradeValue s.

(** The weakness note of the subjects in the bands D7, E8 and F9. *)
Definition urgentNote (weakSubjects : list ComputedSubject.t) : string :=
  let names := JS.join ", " (map ComputedSubject.subject weakSubjects) in
  "Needs urgent improvement in: " ++ names ++ ".".

(** [student.finalRemark && student.finalRemark.trim() !== ""] *)
Definition hasText (s : option string) : bool :=
  match s with
  | Some t => JS.truthy s && negb (String.eqb (JS.trim t) "")
  | None => false
  end.

Definition newline : string := String (ascii_of_nat 10) "".

(** [sortedByScoreAsc[0]?.subject || 'N/A'] *)
Definition lowestSubject (computedSubjects : list ComputedSubject.t) : string :=
  let sortedByScoreAsc :=
    JS.sort (fun a b => (ComputedSubject.score a - ComputedSubject.score b)%Q)
            computedSubjects in
  JS.str_or (option_map ComputedSubject.subject (head sortedByScoreAsc)) "N/A".

(** The notes collected from [Object.entries(student.subjectRemarks)]. *)
Definition facilitatorRemarks (student : StudentData.t) : list string :=
  match StudentData.subjectRemarks student with
  | Some entries =>
      map (fun e => fst e ++ ": " ++ snd e)
          (List.filter (fun e => hasText (Some (snd e))) entries)
  | None => []
  end.

Definition defaultRecommendation : string :=
  "Encouraged to maintain focus on core subjects. Recommended to attend extra classes for weak areas identified above. Parents are advised to supervise evening studies.".

(** The two policies of the remark assembly, each giving the pair
    [(combinedOverallRemark, weaknessAnalysis)]: a manual final remark is
    kept as it is, with the weakness note beside it; otherwise the remark is
    synthesized. *)
Definition manualRemarks (finalRemark : string)
    (computedSubjects : list ComputedSubject.t) : string * string :=
  let combinedOverallRemark := finalRemark in
  let weakSubjects := List.filter isWeak computedSubjects in
  (combinedOverallRemark,
   if (0 <? length weakSubjects)%nat then urgentNote weakSubjects else "").

Definition synthesizedRemarks (student : StudentData.t)
    (computedSubjects : list ComputedSubject.t) (bestSixAggregate : Z)
    (category : string) : string * string :=
  let weakSubjects := List.filter isWeak computedSubjects in
  let weaknessAnalysis :=
    if (0 <? length weakSubjects)%nat then urgentNote weakSubjects
    else "Lowest performance in " ++ lowestSubject computedSubjects ++ "." in
  let facilitatorRemarksList := facilitatorRemarks student in
  let facilitatorRemarksStr :=
    if (0 <? length facilitatorRemarksList)%nat
    then " [Facilitator Notes: " ++ JS.join "; " facilitatorRemarksList ++ "]"
    else "" in
  let generatedPerformanceSummary :=
    "Overall performance is " ++ category ++ ". " ++
    (if bestSixAggregate <=? 15 then "Keep up the excellent work!"
     else "More effort required to improve aggregate.") in
  let classTeacherRemark :=
    JS.str_or (StudentData.overallRemark student) generatedPerformanceSummary in
  (weaknessAnalysis ++ facilitatorRemarksStr ++ newline ++ newline ++ classTeacherRemark,
   weaknessAnalysis).

Definition assembleRemarks (student : StudentData.t)
    (computedSubjects : list ComputedSubject.t) (bestSixAggregate : Z)
    (category : string) : string * string :=
  match StudentData.finalRemark student with
  | Some finalRemark =>
      if hasText (Some finalRemark)
      then manualRemarks finalRemark computedSubjects
      else synthesizedRemarks student computedSubjects bestSixAggregate category
  | None => synthesizedRemarks student computedSubjects bestSixAggregate category
  end.

Section Pipeline.

(** [CORE_SUBJECTS] comes from [constants.ts], which is not among the
    sources: the core subject list is a parameter. *)
Variable CORE_SUBJECTS : list string.

Definition isCore (s : ComputedSubject.t) : bool :=
  existsb (String.eqb (ComputedSubject.subject s)) CORE_SUBJECTS.

(** The best four core subjects and the best two electives. *)
Definition best4Cores (computedSubjects : list ComputedSubject.t) : list ComputedSubject.t :=
  let cores := List.filter isCore computedSubjects in
  JS.slice0 4 (JS.sort sortFn cores).

Definition best2Electives (computedSubjects : list ComputedSubject.t) : list ComputedSubject.t :=
  let electives := List.filter (fun s => negb (isCore s)) computedSubjects in
  JS.slice0 2 (JS.sort sortFn electives).

Definition bestSix (computedSubjects : list ComputedSubject.t) : Z :=
  sumGradeValues (best4Cores computedSubjects) +
  sumGradeValues (best2Electives computedSubjects).

(** The callback of [students.map]: the record of one student, before
    ranking. *)
Definition processStudent (stats : ClassStatistics.t)
    (facilitatorMap : gmap string string) (subjectList : list string)
    (gradingRemarks : gmap string string) (staffList : list StaffMember.t)
    (scienceBaseScore : Q) (student : StudentData.t) : ProcessedStudent.t :=
  let acc := fold_left (subjectStep stats facilitatorMap gradingRemarks staffList
                          scienceBaseScore student) subjectList (0%Q, []) in
  let studentTotalNormalizedScore := fst acc in
  let computedSubjects := snd acc in
  let bestSixAggregate := bestSix computedSubjects in
  let category := categoryOf bestSixAggregate in
  let remarks := assembleRemarks student computedSubjects bestSixAggregate category in
  ProcessedStudent.mk
    (StudentData.id student)
    (StudentData.name student)
    computedSubjects
    studentTotalNormalizedScore
    bestSixAggregate
    (best4Cores computedSubjects)
    (best2Electives computedSubjects)
    (fst remarks)
    (JS.str_or (StudentData.recommendation student) defaultRecommendation)
    (snd remarks)
    category
    0
    (JS.str_or (StudentData.attendance student) "0")
    (StudentData.age student)
    (StudentData.promotedTo student)
    (StudentData.conduct student)
    (StudentData.interest student)
    (StudentData.skills student).

(** The comparator of the final sort: by aggregate, the lower first, then by
    total score, the higher first. *)
Definition rankFn (a b : ProcessedStudent.t) : Q :=
  if negb (ProcessedStudent.bestSixAggregate a =? ProcessedStudent.bestSixAggregate b)
  then inject_Z (ProcessedStudent.bestSixAggregate a - ProcessedStudent.bestSixAggregate b)
  else (ProcessedStudent.totalScore b - ProcessedStudent.totalScore a)%Q.

(** [processed.forEach((p, index) => { p.rank = index + 1; })], from
    position [index] on. *)
Fixpoint assignRanks (index : Z) (processed : list ProcessedStudent.t)
    : list ProcessedStudent.t :=
  match processed with
  | [] => []
  | p :: r => ProcessedStudent.set_rank p (index + 1) :: assignRanks (index + 1) r
  end.

Definition processStudentData (stats : ClassStatistics.t)
    (students : list StudentData.t) (facilitatorMap : gmap string string)
    (subjectList : list string) (gradingRemarks : gmap string string)
    (staffList : list StaffMember.t) (scienceBaseScore : Q)
    : list ProcessedStudent.t :=
  let processed :=
    map (processStudent stats facilitatorMap subjectList gradingRemarks
           staffList scienceBaseScore) students in
  assignRanks 0 (JS.sort rankFn processed).

End Pipeline.

(** The records that tie in the ranking: they share an aggregate and a total
    score. *)
Definition tiedAt (aggregate : Z) (totalScore : Q) (p : ProcessedStudent.t) : bool :=
  (ProcessedStudent.bestSixAggregate p =? aggregate)
  && Qeq_bool (ProcessedStudent.totalScore p) totalScore.

(** ** Facilitator statistics *)

(** [parseFloat(x.toFixed(2))]: [toFixed] works on the absolute value and
    takes the nearest multiple of 1/100, the larger one at a tie. *)
Definition toFixed2 (x : Q) : Q :=
  if Qle_bool 0 x
  then (inject_Z (Qfloor (x * 100 + (1 # 2))) / 100)%Q
  else (- (inject_Z (Qfloor (- x * 100 + (1 # 2))) / 100))%Q.

Definition gradeBands : list string :=
  ["A1"; "B2"; "B3"; "C4"; "C5"; "C6"; "D7"; "E8"; "F9"].

(** [{ 'A1': 0, ..., 'F9': 0 }] *)
Definition initialGradeCounts : gmap string Z :=
  list_to_map (map (fun g => (g, 0)) gradeBands).

(** The record stored under a key seen for the first time. *)
Definition freshStats (sub : ComputedSubject.t) : FacilitatorStats.t :=
  FacilitatorStats.mk (ComputedSubject.facilitator sub) (ComputedSubject.subject sub)
    0 initialGradeCounts 0 0 0 "".

(** The three updates of an entry for one computed subject. *)
Definition countSubject (sub : ComputedSubject.t) (entry : FacilitatorStats.t)
    : FacilitatorStats.t :=
  let gc := FacilitatorStats.gradeCounts entry in
  FacilitatorStats.mk
    (FacilitatorStats.facilitatorName entry)
    (FacilitatorStats.subject entry)
    (FacilitatorStats.studentCount entry + 1)
    (<[ComputedSubject.grade sub := default 0 (gc !! ComputedSubject.grade sub) + 1]> gc)
    (FacilitatorStats.totalGradeValue entry + ComputedSubject.gradeValue sub)
    (FacilitatorStats.performancePercentage entry)
    (FacilitatorStats.averageGradeValue entry)
    (FacilitatorStats.performanceGrade entry).

(** [statsMap] keeps its keys in insertion order, which is the order of
    [Object.values]: an association list with one entry per key. *)
Fixpoint hasKey (key : string) (statsMap : list (string * FacilitatorStats.t)) : bool :=
  match statsMap with
  | [] => false
  | (k, _) :: r => String.eqb k key || hasKey key r
  end.

Fixpoint alterKey (key : string) (f : FacilitatorStats.t -> FacilitatorStats.t)
    (statsMap : list (string * FacilitatorStats.t))
    : list (string * FacilitatorStats.t) :=
  match statsMap with
  | [] => []
  | (k, e) :: r => if String.eqb k key then (k, f e) :: r
                   else (k, e) :: alterKey key f r
  end.

Definition statsKey (sub : ComputedSubject.t) : string :=
  ComputedSubject.facilitator sub ++ "||" ++ ComputedSubject.subject sub.

(** The body of [student.subjects.forEach]. *)
Definition statsStep (statsMap : list (string * FacilitatorStats.t))
    (sub : ComputedSubject.t) : list (string * FacilitatorStats.t) :=
  let key := statsKey sub in
  let statsMap1 :=
    if hasKey key statsMap then statsMap
    else (statsMap ++ [(key, freshStats sub)])%list in
  alterKey key (countSubject sub) statsMap1.

Definition collectStats (processedStudents : list ProcessedStudent.t)
    : list (string * FacilitatorStats.t) :=
  fold_left (fun statsMap student =>
               fold_left statsStep (ProcessedStudent.subjects student) statsMap)
            processedStudents [].

Definition percentageOf (stat : FacilitatorStats.t) : Q :=
  let totalExpectedValue := FacilitatorStats.studentCount stat * 9 in
  if 0 <? totalExpectedValue
  then ((1 - inject_Z (FacilitatorStats.totalGradeValue stat) / inject_Z totalExpectedValue) * 100)%Q
  else 0%Q.

Definition performanceGradeOf (percentage : Q) : string :=
  let perfGrade := "F9" in
  if Qle_bool 80 percentage then "A1"
  else if Qle_bool 70 percentage then "B2"
  else if Qle_bool 60 percentage then "B3"
  else if Qle_bool 50 percentage then "C4"
  else if Qle_bool 45 percentage then "C5"
  else if Qle_bool 40 percentage then "C6"
  else if Qle_bool 35 percentage then "D7"
  else if Qle_bool 30 percentage then "E8"
  else perfGrade.

(** The callback of [Object.values(statsMap).map]. *)
Definition finishStats (stat : FacilitatorStats.t) : FacilitatorStats.t :=
  let avg :=
    if 0 <? FacilitatorStats.studentCount stat
    then (inject_Z (FacilitatorStats.totalGradeValue stat) /
          inject_Z (FacilitatorStats.studentCount stat))%Q
    else 0%Q in
  let percentage := percentageOf stat in
  FacilitatorStats.mk
    (FacilitatorStats.facilitatorName stat)
    (FacilitatorStats.subject stat)
    (FacilitatorStats.studentCount stat)
    (FacilitatorStats.gradeCounts stat)
    (FacilitatorStats.totalGradeValue stat)
    (toFixed2 percentage)
    avg
    (performanceGradeOf percentage).

Definition calculateFacilitatorStats (processedStudents : list ProcessedStudent.t)
    : list FacilitatorStats.t :=
  JS.sort (fun a b => (FacilitatorStats.performancePercentage b -
                       FacilitatorStats.performancePercentage a)%Q)
          (map finishStats (map snd (collectStats processedStudents))).

(** ** The band table of the grading rule, as the specification words it *)

(** The first entry of a table of tested cutoffs whose test holds. *)
Definition firstMatching {A : Type} (table : list (bool * A)) (otherwise : A) : A :=
  match List.find fst table with
  | Some (_, a) => a
  | None => otherwise
  end.

(** The cutoffs on [diff = score - mean], in the order in which they are
    tried, each with its band and value. *)
Definition bandTable (diff stdDev : JS.num) : list (bool * (string * Z)) :=
  [ (JS.ge diff (JS.mul (JS.fin (1645 # 1000)) stdDev), ("A1", 1));
    (JS.ge diff (JS.mul (JS.fin (1036 # 1000)) stdDev), ("B2", 2));
    (JS.ge diff (JS.mul (JS.fin (524 # 1000)) stdDev), ("B3", 3));
    (JS.ge diff (JS.fin 0), ("C4", 4));
    (JS.ge diff (JS.mul (JS.fin (- 524 # 1000)) stdDev), ("C5", 5));
    (JS.ge diff (JS.mul (JS.fin (- 1036 # 1000)) stdDev), ("C6", 6));
    (JS.ge diff (JS.mul (JS.fin (- 1645 # 1000)) stdDev), ("D7", 7));
    (JS.ge diff (JS.mul (JS.fin (- 2326 # 1000)) stdDev), ("E8", 8)) ].

Definition gradeByTable (score : Q) (mean stdDev : JS.num) : string * Z :=
  if JS.eqb stdDev (JS.fin 0) then ("C4", 4)
  else firstMatching (bandTable (JS.sub (JS.fin score) mean) stdDev) ("F9", 9).

(** ** The contributing score, as the specification words it *)

(** For Science with a breakdown, the rounded sum of the two sections, put on
    the 100-point scale when the base score is 140; otherwise the flat score
    of the subject, 0 when there is none. *)
Definition contributingScore (scienceBaseScore : Q) (subject : string)
    (s : StudentData.t) : Q :=
  match scienceDetails s with
  | Some det =>
      if String.eqb subject "Science" then
        let sum := (ScoreDetail.sectionA det + ScoreDetail.sectionB det)%Q in
        if Qeq_bool scienceBaseScore 140
        then JS.Math_round (sum / 140 * 100)%Q
        else JS.Math_round sum
      else default 0%Q (StudentData.scores s !! subject)
  | None => default 0%Q (StudentData.scores s !! subject)
  end.

(** ** The remark of a student with a manual final remark, as observed *)

(** The weakness note of a list of computed subjects: the subjects graded
    D7, E8 or F9, by name, or nothing when there is none. *)
Definition weaknessNote (subjects : list ComputedSubject.t) : string :=
  match List.filter (fun s => 7 <=? ComputedSubject.gradeValue s) subjects with
  | [] => ""
  | weak => "Needs urgent improvement in: "
            ++ JS.join ", " (map ComputedSubject.subject weak) ++ "."
  end.

(** The descriptive fields of a processed record against those of the
    student: five are copies, the attendance is the student's unless it is
    absent or empty, when it is "0". *)
Definition passedThrough (student : StudentData.t) (p : ProcessedStudent.t) : Prop :=
  ProcessedStudent.age p = StudentData.age student /\
  ProcessedStudent.promotedTo p = StudentData.promotedTo student /\
  ProcessedStudent.conduct p = StudentData.conduct student /\
  ProcessedStudent.interest p = StudentData.interest student /\
  ProcessedStudent.skills p = StudentData.skills student /\
  ProcessedStudent.attendance p = JS.str_or (StudentData.attendance student) "0" /\
  (forall a, StudentData.attendance student = Some a -> a <> "" ->
             ProcessedStudent.attendance p = a).

(** ** A small cohort, for the instances below *)

Definition demoCore : list string :=
  ["Mathematics"; "English Language"; "Science"; "Social Studies"].

Definition demoSubjects : list string := ["Mathematics"; "Science"; "French"].

Definition demoStats : ClassStatistics.t :=
  ClassStatistics.mk
    (list_to_map [("Mathematics", 70%Q); ("Science", 60%Q); ("French", 50%Q)])
    (list_to_map [("Mathematics", 10%Q); ("Science", 10%Q); ("French", 0%Q)]).

Definition ama : StudentData.t :=
  StudentData.mk 1 "Ama"
    (list_to_map [("Mathematics", 90%Q); ("Science", 60%Q); ("French", 55%Q)])
    None None (Some "Good effort.") None None
    (Some "58") (Some "14") (Some "Basic 9") (Some "Calm") (Some "Reading") (Some "Drawing").

Definition kofi : StudentData.t :=
  StudentData.mk 2 "Kofi"
    (list_to_map [("Mathematics", 50%Q); ("French", 40%Q)])
    (Some (list_to_map [("Science", ScoreDetail.mk 30 50 80)]))
    None (Some "Keep trying.") None None
    (Some "") None None None None None.

Definition esi : StudentData.t :=
  StudentData.mk 3 "Esi"
    (list_to_map [("Mathematics", 70%Q); ("Science", 50%Q)])
    None (Some [("Mathematics", "Steady."); ("Science", "  ")]) None None None
    None (Some "15") None None None None.

Definition demoStudents : list StudentData.t := [ama; kofi; esi].

Definition demoRun : list ProcessedStudent.t :=
  processStudentData demoCore demoStats demoStudents ∅ demoSubjects ∅ [] 100.

(** ** Sums over the grade counts *)

(** [sum(gradeCounts.values())] *)
Definition sumValues (gradeCounts : gmap string Z) : Z :=
  foldr Z.add 0 (map snd (map_to_list gradeCounts)).

(** The sum of the counts of a list of grade names, a name without a count
    standing for 0. *)
Definition sumOver (bands : list string) (gradeCounts : gmap string Z) : Z :=
  foldr (fun g acc => default 0 (gradeCounts !! g) + acc) 0 bands.

(** A computed subject as [processStudentData] writes it: the grade is among the nine bands,
    with values from 1 to 9. *)
Definition pipelineGrade (sub : ComputedSubject.t) : Prop :=
  In (ComputedSubject.grade sub) gradeBands /\ 1 <= ComputedSubject.gradeValue sub <= 9.


(** The records of the small cohort, and its facilitator statistics. *)
Definition demoProcess : StudentData.t -> ProcessedStudent.t :=
  processStudent demoCore demoStats ∅ demoSubjects ∅ [] 100.

Definition amaRecord : ProcessedStudent.t := ProcessedStudent.set_rank (demoProcess ama) 1.
Definition kofiRecord : ProcessedStudent.t := ProcessedStudent.set_rank (demoProcess kofi) 2.

Definition demoFacilitatorStats : list FacilitatorStats.t :=
  calculateFacilitatorStats demoRun.

Definition emptyStats : FacilitatorStats.t :=
  freshStats (ComputedSubject.mk "Science" 0 "C4" 4 "" "TBA" JS.NaN).

Definition demoScienceStats : FacilitatorStats.t :=
  List.hd (finishStats emptyStats) demoFacilitatorStats.

(** ** The daycare bands *)

Module DaycareGrade.
Record t := mk {
  grade : string;
  remark : string
}.
End DaycareGrade.

(** [getDaycareGrade] *)
Definition getDaycareGrade (score : Q) : DaycareGrade.t :=
  if Qle_bool 70 score then DaycareGrade.mk "G" "High Level of Proficiency" else
  if Qle_bool 40 score then DaycareGrade.mk "S" "Sufficient Level of Proficiency" else
  DaycareGrade.mk "B" "Approaching Proficiency".

(** ** The class average of [App.tsx] *)

(** [processed.length > 0
      ? processed.reduce((sum, st) => sum + st.bestSixAggregate, 0) / processed.length
      : 0] *)
Definition classAvgAggregate (processed : list ProcessedStudent.t) : Q :=
  let total : Z :=
    fold_left (fun sum st => sum + ProcessedStudent.bestSixAggregate st) processed 0 in
  if (0 <? length processed)%nat
  then (inject_Z total / inject_Z (Z.of_nat (length processed)))%Q
  else 0%Q.

(** ** Score entry ([components/ScoreEntry.tsx]) *)

Module ScoreEntry.

(** The argument [field: 'sectionA' | 'sectionB']. *)
Inductive field := SectionA | SectionB.

Definition isScience (selectedSubject : string) : bool :=
  String.eqb selectedSubject "Science".

Definition isJHS (department : string) : bool :=
  String.eqb department "Junior High School".

Definition isEarlyChildhood (department : string) : bool :=
  String.eqb department "Daycare" || String.eqb department "Nursery"
  || String.eqb department "Kindergarten".

(** [Math.min] and [Math.max] on two numbers. *)
Definition Math_max (a b : Q) : Q := if Qle_bool a b then b else a.
Definition Math_min (a b : Q) : Q := if Qle_bool a b then a else b.

(** [{ ...student, scores: scores, scoreDetails: details }] *)
Definition withScores (student : StudentData.t) (scores : gmap string Q)
    (details : gmap string ScoreDetail.t) : StudentData.t :=
  StudentData.mk (StudentData.id student) (StudentData.name student)
    scores (Some details)
    (StudentData.subjectRemarks student) (StudentData.finalRemark student)
    (StudentData.overallRemark student) (StudentData.recommendation student)
    (StudentData.attendance student) (StudentData.age student)
    (StudentData.promotedTo student) (StudentData.conduct student)
    (StudentData.interest student) (StudentData.skills student).

(** [{ ...student.scoreDetails }]: the spread of an absent object is empty. *)
Definition detailsOf (student : StudentData.t) : gmap string ScoreDetail.t :=
  default ∅ (StudentData.scoreDetails student).

(** [{ ...currentDetails, [field]: numValue }] *)
Definition setField (currentDetails : ScoreDetail.t) (f : field) (numValue : Q)
    : ScoreDetail.t :=
  match f with
  | SectionA => ScoreDetail.mk numValue (ScoreDetail.sectionB currentDetails)
                  (ScoreDetail.total currentDetails)
  | SectionB => ScoreDetail.mk (ScoreDetail.sectionA currentDetails) numValue
                  (ScoreDetail.total currentDetails)
  end.

(** The update of the student whose id matches, in the early-childhood
    departments: one score, clamped to the range from 0 to 100. *)
Definition enterEarlyScore (selectedSubject : string) (numValue : Q)
    (student : StudentData.t) : StudentData.t :=
  let score := Math_min 100 (Math_max 0 numValue) in
  withScores student
    (<[selectedSubject := score]> (StudentData.scores student))
    (<[selectedSubject := ScoreDetail.mk 0 score score]> (detailsOf student)).

(** The update of the student whose id matches, in the other departments:
    one section mark, and the total derived from both sections. *)
Definition enterSectionScore (department selectedSubject : string)
    (scienceBaseScore : Q) (f : field) (numValue : Q)
    (student : StudentData.t) : StudentData.t :=
  let currentDetails :=
    default (ScoreDetail.mk 0 0 0) (detailsOf student !! selectedSubject) in
  let newDetails := setField currentDetails f numValue in
  let rawSum := (ScoreDetail.sectionA newDetails + ScoreDetail.sectionB newDetails)%Q in
  let total :=
    if isScience selectedSubject && isJHS department && Qeq_bool scienceBaseScore 140
    then JS.Math_round ((rawSum / 140) * 100)%Q
    else JS.Math_round rawSum in
  let newDetails := ScoreDetail.mk (ScoreDetail.sectionA newDetails)
                      (ScoreDetail.sectionB newDetails) total in
  withScores student
    (<[selectedSubject := ScoreDetail.total newDetails]> (StudentData.scores student))
    (<[selectedSubject := newDetails]> (detailsOf student)).

(** [handleScoreChange], as the function from the previous student list to
    the next that it hands to [setStudents].  [value] is the result of
    [parseFloat] on the text of the input, [NaN] when it is not a number. *)
Definition handleScoreChange (department selectedSubject : string)
    (scienceBaseScore : Q) (id : Z) (f : field) (value : JS.num)
    (students : list StudentData.t) : list StudentData.t :=
  let numValue := match value with Some v => v | None => 0%Q end in
  if isEarlyChildhood department then
    map (fun student =>
           if negb (StudentData.id student =? id) then student
           else enterEarlyScore selectedSubject numValue student) students
  else
    map (fun student =>
           if negb (StudentData.id student =? id) then student
           else enterSectionScore department selectedSubject scienceBaseScore
                  f numValue student) students.

End ScoreEntry.

(** ** The grading rule on the z-score *)



(** The band that carries a grade value. *)
Definition bandOfValue (value : Z) : string :=
  nth (Z.to_nat (value - 1)) gradeBands "".

(** All statistics entries of the per-subject grade counts of a cohort. *)
Definition allSubjects (processedStudents : list ProcessedStudent.t)
    : list ComputedSubject.t :=
  concat (map ProcessedStudent.subjects processedStudents).

(** ** A student with five core subjects, for the instances below *)

Definition wideCore : list string :=
  ["Mathematics"; "English Language"; "Science"; "Social Studies"; "Computing"].

Definition wideStats : ClassStatistics.t :=
  ClassStatistics.mk
    (list_to_map (map (fun s => (s, 60%Q)) wideCore))
    (list_to_map (map (fun s => (s, 10%Q)) wideCore)).

Definition yaw : StudentData.t :=
  StudentData.mk 7 "Yaw"
    (list_to_map [("Mathematics", 90%Q); ("English Language", 70%Q); ("Science", 60%Q);
                  ("Social Studies", 50%Q); ("Computing", 40%Q)])
    None None None None None None None None None None None.

Definition wideRun : list ProcessedStudent.t :=
  processStudentData wideCore wideStats [yaw] ∅ wideCore ∅ [] 100.

Definition yawRecord : ProcessedStudent.t :=
  ProcessedStudent.set_rank (processStudent wideCore wideStats ∅ wideCore ∅ [] 100 yaw) 1.

Definition yawSubject (subject : string) : ComputedSubject.t :=
  computeSubject wideStats ∅ ∅ [] 100 yaw subject.

Definition esiRecord : ProcessedStudent.t := ProcessedStudent.set_rank (demoProcess esi) 3.

(** A student of distinction without any remark, alone in her class. *)
Definition abena : StudentData.t :=
  StudentData.mk 4 "Abena"
    (list_to_map [("Mathematics", 95%Q); ("Science", 85%Q); ("French", 60%Q)])
    None None None None None None None None None None None.

Definition abenaRun : list ProcessedStudent.t :=
  processStudentData demoCore demoStats [abena] ∅ demoSubjects ∅ [] 100.

(** ** The comparator of the lowest-score search *)

Definition scoreAsc (a b : ComputedSubject.t) : Q :=
  (ComputedSubject.score a - ComputedSubject.score b)%Q.

(** ** The keys of the facilitator statistics *)

(** The key under which a record of the statistics is stored. *)
Definition recordKey (r : FacilitatorStats.t) : string :=
  FacilitatorStats.facilitatorName r ++ "||" ++ FacilitatorStats.subject r.

Definition keyed (k : string) (sub : ComputedSubject.t) : bool :=
  String.eqb (statsKey sub) k.

Definition keyedGrade (k g : string) (sub : ComputedSubject.t) : bool :=
  keyed k sub && String.eqb (ComputedSubject.grade sub) g.

(** An entry of [statsMap] is the tally of the computed subjects with its
    key among a list of subjects: it carries the facilitator and the subject
    of the first of them, their number, the sum of their grade values and,
    grade by grade, the number of those with the grade. *)
Definition tallies (subs : list ComputedSubject.t) (k : string)
    (e : FacilitatorStats.t) : Prop :=
  k = recordKey e /\
  (exists first, hd_error (List.filter (keyed k) subs) = Some first /\
     FacilitatorStats.facilitatorName e = ComputedSubject.facilitator first /\
     FacilitatorStats.subject e = ComputedSubject.subject first) /\
  FacilitatorStats.studentCount e = Z.of_nat (length (List.filter (keyed k) subs)) /\
  FacilitatorStats.totalGradeValue e = sumGradeValues (List.filter (keyed k) subs) /\
  forall g, default 0 (FacilitatorStats.gradeCounts e !! g)
            = Z.of_nat (length (List.filter (keyedGrade k g) subs)).

(** The last record of the facilitator statistics of the small cohort. *)
Definition demoLastStats : FacilitatorStats.t :=
  nth 2 demoFacilitatorStats (finishStats emptyStats).

(** ** What score entry leaves alone *)

(** Two student records that differ at most in their scores and score
    details. *)
Definition sameParticulars (s s' : StudentData.t) : Prop :=
  StudentData.id s' = StudentData.id s /\
  StudentData.name s' = StudentData.name s /\
  StudentData.subjectRemarks s' = StudentData.subjectRemarks s /\
  StudentData.finalRemark s' = StudentData.finalRemark s /\
  StudentData.overallRemark s' = StudentData.overallRemark s /\
  StudentData.recommendation s' = StudentData.recommendation s /\
  StudentData.attendance s' = StudentData.attendance s /\
  StudentData.age s' = StudentData.age s /\
  StudentData.promotedTo s' = StudentData.promotedTo s /\
  StudentData.conduct s' = StudentData.conduct s /\
  StudentData.interest s' = StudentData.interest s /\
  StudentData.skills s' = StudentData.skills s.

(** * Properties *)

(** ** The grading rule *)

(** C1.  For every score, mean, standard deviation and remark map,
    [getGradeFromZScore] returns C4 with value 4 when the standard deviation
    is zero, and otherwise the band of the first cutoff on
    [diff = score - mean] that holds, in the order 1.645, 1.036, 0.524, 0,
    -0.524, -1.036, -1.645, -2.326 (times the standard deviation, the zero
    cutoff apart), with values 1 to 8, and F9 with value 9 when none holds. *)
Theorem getGradeFromZScore_bands (score : Q) (mean stdDev : JS.num)
    (remarksMap : gmap string string) :
  let g := getGradeFromZScore score mean stdDev remarksMap in
  (gr_grade g, gr_value g) = gradeByTable score mean stdDev.
Proof.
  unfold getGradeFromZScore, gradeByTable, firstMatching, bandTable.
  destruct (JS.eqb stdDev (JS.fin 0)); [reflexivity|].
  cbn [List.find fst].
  repeat match goal with
         | |- context [if JS.ge ?a ?b then _ else _] => destruct (JS.ge a b)
         end; reflexivity.
Qed.

(** The example of the specification: scores 90, 70 and 50 around the mean
    70 with standard deviation 16.33 are graded B2, C4 and D7. *)
Example grades_90_70_50 :
  map (fun score => gr_grade (getGradeFromZScore score (JS.fin 70) (JS.fin (1633 # 100)) ∅))
      [90%Q; 70%Q; 50%Q]
  = ["B2"; "C4"; "D7"].
Proof. reflexivity. Qed.

(** A subject without statistics: the comparisons with [NaN] all fail. *)
Example grade_without_statistics :
  gr_grade (getGradeFromZScore 90 JS.NaN JS.NaN ∅) = "F9".
Proof. reflexivity. Qed.

(** With a zero standard deviation the grade is C4, whatever the score. *)
Lemma getGradeFromZScore_zero_stdDev (score : Q) (mean : JS.num) (sd : Q)
    (remarksMap : gmap string string) :
  (sd == 0)%Q ->
  let g := getGradeFromZScore score mean (JS.fin sd) remarksMap in
  gr_grade g = "C4" /\ gr_value g = 4.
Proof.
  intros H. unfold getGradeFromZScore. cbn [JS.eqb JS.fin].
  apply Qeq_bool_iff in H. rewrite H. split; reflexivity.
Qed.

(** The value of a grade lies between 1 and 9 and names its band. *)
Lemma getGradeFromZScore_value_range (score : Q) (mean stdDev : JS.num)
    (remarksMap : gmap string string) :
  let g := getGradeFromZScore score mean stdDev remarksMap in
  1 <= gr_value g <= 9 /\ In (gr_grade g) gradeBands.
Proof.
  unfold getGradeFromZScore, gradeBands.
  destruct (JS.eqb stdDev (JS.fin 0)); [cbn; split; [lia|tauto]|].
  repeat match goal with
         | |- context [if JS.ge ?a ?b then _ else _] => destruct (JS.ge a b)
         end; cbn; (split; [lia|tauto]).
Qed.

(** C8.  For a fixed mean and a positive standard deviation, the grade value
    never decreases as the relative performance [(score - mean) / stdDev]
    decreases: of two scores, the one with the larger z-score has the smaller
    or equal grade value. *)
Theorem getGradeFromZScore_monotone (score1 score2 : Q) (mean : JS.num) (stdDev : Q)
    (remarksMap : gmap string string) :
  (0 < stdDev)%Q ->
  JS.ge (JS.div (JS.sub (JS.fin score1) mean) (JS.fin stdDev))
        (JS.div (JS.sub (JS.fin score2) mean) (JS.fin stdDev)) = true ->
  gr_value (getGradeFromZScore score1 mean (JS.fin stdDev) remarksMap)
  <= gr_value (getGradeFromZScore score2 mean (JS.fin stdDev) remarksMap).
Proof.
  intros Hsd Hz. destruct mean as [m|]; [|discriminate].
  cbn [JS.ge JS.div JS.sub JS.fin] in Hz. apply Qle_bool_iff in Hz.
  assert (Hd : (score2 - m <= score1 - m)%Q).
  { apply Qmult_le_r with (z := (/ stdDev)%Q); [now apply Qinv_lt_0_compat|exact Hz]. }
  unfold getGradeFromZScore. cbn [JS.eqb JS.ge JS.mul JS.sub JS.fin].
  destruct (Qeq_bool stdDev 0) eqn:E0.
  { apply Qeq_bool_iff in E0. lra. }
  repeat match goal with
         | |- context [if Qle_bool ?a ?b then _ else _] =>
             let E := fresh "E" in
             destruct (Qle_bool a b) eqn:E;
             [apply Qle_bool_iff in E | apply not_true_iff_false in E; rewrite Qle_bool_iff in E]
         end; cbn [gr_value]; try lia; exfalso; lra.
Qed.

(** An instance: around a mean of 70 with standard deviation 10, the score
    90 (z = 2) is graded no worse than the score 50 (z = -2). *)
Lemma getGradeFromZScore_monotone_witness :
  gr_value (getGradeFromZScore 90 (JS.fin 70) (JS.fin 10) ∅)
  <= gr_value (getGradeFromZScore 50 (JS.fin 70) (JS.fin 10) ∅).
Proof.
  apply (getGradeFromZScore_monotone 90 50 (JS.fin 70) 10 ∅); reflexivity.
Defined.

(** ** One normalization rule in both passes *)

Lemma num_or_default (x : option Q) : (JS.num_or x 0 == default 0 x)%Q.
Proof.
  destruct x as [v|]; cbn; [|reflexivity].
  destruct (Qeq_bool v 0) eqn:E; [|reflexivity].
  apply Qeq_bool_iff in E. now rewrite E.
Qed.

(** C2.  For every student, subject and science base score, the score that
    [calculateClassStatistics] feeds into the statistics of the subject is
    the score that [processStudentData] grades for that student and subject;
    it is, for Science with a breakdown, the rounded section sum (scaled by
    100/140 before rounding when the base is 140), and otherwise the flat
    score, 0 when absent. *)
Theorem statisticsScore_studentScore (scienceBaseScore : Q) (subject : string)
    (s : StudentData.t) :
  statisticsScore scienceBaseScore subject s = studentScore scienceBaseScore subject s
  /\ (studentScore scienceBaseScore subject s
       == contributingScore scienceBaseScore subject s)%Q.
Proof.
  unfold statisticsScore, studentScore, contributingScore. split.
  - destruct (String.eqb subject "Science"); [destruct (scienceDetails s)|]; reflexivity.
  - destruct (String.eqb subject "Science"), (scienceDetails s);
      first [reflexivity | apply num_or_default].
Qed.

(** The example of the specification: sections 30 and 50 on base 140 give 57. *)
Example science_140_example :
  let det := ScoreDetail.mk 30 50 80 in
  let s := StudentData.mk 1 "A" ∅ (Some {[ "Science" := det ]}) None None None None
             None None None None None None in
  statisticsScore 140 "Science" s = 57%Q /\ studentScore 140 "Science" s = 57%Q.
Proof. split; vm_compute; reflexivity. Qed.

(** ** The sort *)

Section SortFacts.
Context {A : Type} (cmp : A -> A -> Q).

Local Abbreviation le := (fun a b => JS.before cmp a b = true).

Lemma insert_sorted_perm (x : A) (l : list A) :
  JS.insert_sorted cmp x l ≡ₚ x :: l.
Proof.
  induction l as [|y r IH]; cbn; [reflexivity|].
  destruct (JS.before cmp x y); [reflexivity|].
  rewrite IH. apply perm_swap.
Qed.

Lemma sort_perm (l : list A) : JS.sort cmp l ≡ₚ l.
Proof.
  induction l as [|x r IH]; cbn; [reflexivity|].
  rewrite insert_sorted_perm. now constructor.
Qed.

Lemma sort_length (l : list A) : length (JS.sort cmp l) = length l.
Proof. apply Permutation_length, sort_perm. Qed.

(** Stability: elements that the comparator does not separate keep their
    input order.  No assumption on the comparator is needed for it. *)
Lemma insert_sorted_filter (P : A -> bool) (x : A) (l : list A) :
  (forall a b, P a = true -> P b = true -> JS.before cmp a b = true) ->
  List.filter P (JS.insert_sorted cmp x l) = List.filter P (x :: l).
Proof.
  intros HP. induction l as [|y r IH]; [reflexivity|].
  cbn [JS.insert_sorted]. destruct (JS.before cmp x y) eqn:E; [reflexivity|].
  cbn [List.filter] in *. rewrite IH.
  destruct (P x) eqn:Px, (P y) eqn:Py; try reflexivity.
  rewrite (HP x y Px Py) in E. discriminate.
Qed.

Lemma sort_stable (P : A -> bool) (l : list A) :
  (forall a b, P a = true -> P b = true -> JS.before cmp a b = true) ->
  List.filter P (JS.sort cmp l) = List.filter P l.
Proof.
  intros HP. induction l as [|x r IH]; [reflexivity|].
  cbn [JS.sort]. rewrite insert_sorted_filter by exact HP.
  cbn [List.filter]. now rewrite IH.
Qed.

(** Sortedness, for a comparator that is total and transitive. *)
Hypothesis before_total : forall a b, JS.before cmp a b = true \/ JS.before cmp b a = true.
Hypothesis before_trans : forall a b c,
  JS.before cmp a b = true -> JS.before cmp b c = true -> JS.before cmp a c = true.

Lemma insert_sorted_StronglySorted (x : A) (l : list A) :
  StronglySorted le l -> StronglySorted le (JS.insert_sorted cmp x l).
Proof.
  induction 1 as [|y r Hr IH Hy]; cbn.
  - repeat constructor.
  - destruct (JS.before cmp x y) eqn:E.
    + constructor; [now constructor|].
      constructor; [exact E|].
      eapply Forall_impl; [exact Hy|]. intros z Hz. now apply before_trans with y.
    + constructor; [exact IH|].
      rewrite insert_sorted_perm. constructor; [|exact Hy].
      destruct (before_total x y) as [H|H]; [congruence|exact H].
Qed.

Lemma sort_StronglySorted (l : list A) : StronglySorted le (JS.sort cmp l).
Proof.
  induction l as [|x r IH]; cbn; [constructor|].
  now apply insert_sorted_StronglySorted.
Qed.

End SortFacts.

Lemma StronglySorted_lookup {A : Type} (R : A -> A -> Prop) (l : list A) :
  StronglySorted R l ->
  forall (i j : nat) (a b : A), (i < j)%nat -> l !! i = Some a -> l !! j = Some b -> R a b.
Proof.
  induction 1 as [|x r Hr IH Hx]; intros i j a b Hij Ha Hb; [discriminate|].
  destruct j as [|j]; [lia|]. cbn in Hb.
  destruct i as [|i]; cbn in Ha.
  - injection Ha as <-. rewrite Forall_forall in Hx.
    apply Hx. eapply list_elem_of_lookup_2. exact Hb.
  - apply (IH i j); [lia|assumption..].
Qed.

Lemma inject_Z_nonpos (z : Z) : (inject_Z z <= 0)%Q <-> z <= 0.
Proof. unfold Qle; cbn. lia. Qed.

Lemma Qminus_nonpos (x y : Q) : (x - y <= 0)%Q <-> (x <= y)%Q.
Proof. split; intros; lra. Qed.

(** The two comparators, read as orders. *)
Lemma before_sortFn (a b : ComputedSubject.t) :
  JS.before sortFn a b = true <->
  ComputedSubject.gradeValue a < ComputedSubject.gradeValue b \/
  (ComputedSubject.gradeValue a = ComputedSubject.gradeValue b /\
   (ComputedSubject.score b <= ComputedSubject.score a)%Q).
Proof.
  unfold JS.before, sortFn. rewrite Qle_bool_iff.
  destruct (Z.eqb_spec (ComputedSubject.gradeValue a) (ComputedSubject.gradeValue b)) as [E|E];
    cbn [negb].
  - rewrite Qminus_nonpos. intuition lia.
  - rewrite inject_Z_nonpos. intuition lia.
Qed.

Lemma before_rankFn (a b : ProcessedStudent.t) :
  JS.before rankFn a b = true <->
  ProcessedStudent.bestSixAggregate a < ProcessedStudent.bestSixAggregate b \/
  (ProcessedStudent.bestSixAggregate a = ProcessedStudent.bestSixAggregate b /\
   (ProcessedStudent.totalScore b <= ProcessedStudent.totalScore a)%Q).
Proof.
  unfold JS.before, rankFn. rewrite Qle_bool_iff.
  destruct (Z.eqb_spec (ProcessedStudent.bestSixAggregate a)
                       (ProcessedStudent.bestSixAggregate b)) as [E|E]; cbn [negb].
  - rewrite Qminus_nonpos. intuition lia.
  - rewrite inject_Z_nonpos. intuition lia.
Qed.

Lemma sortFn_total (a b : ComputedSubject.t) :
  JS.before sortFn a b = true \/ JS.before sortFn b a = true.
Proof.
  rewrite !before_sortFn.
  destruct (Z.lt_total (ComputedSubject.gradeValue a) (ComputedSubject.gradeValue b))
    as [H|[H|H]]; [tauto| |tauto].
  destruct (Qlt_le_dec (ComputedSubject.score a) (ComputedSubject.score b)) as [L|L].
  - right. right. split; [easy|]. now apply Qlt_le_weak.
  - left. right. split; [easy|exact L].
Qed.

Lemma sortFn_trans (a b c : ComputedSubject.t) :
  JS.before sortFn a b = true -> JS.before sortFn b c = true ->
  JS.before sortFn a c = true.
Proof.
  rewrite !before_sortFn. intros [H1|[H1 L1]] [H2|[H2 L2]]; try (left; lia).
  right. split; [lia|]. now apply Qle_trans with (ComputedSubject.score b).
Qed.

Lemma rankFn_total (a b : ProcessedStudent.t) :
  JS.before rankFn a b = true \/ JS.before rankFn b a = true.
Proof.
  rewrite !before_rankFn.
  destruct (Z.lt_total (ProcessedStudent.bestSixAggregate a)
                       (ProcessedStudent.bestSixAggregate b)) as [H|[H|H]]; [tauto| |tauto].
  destruct (Qlt_le_dec (ProcessedStudent.totalScore a) (ProcessedStudent.totalScore b)) as [L|L].
  - right. right. split; [easy|]. now apply Qlt_le_weak.
  - left. right. split; [easy|exact L].
Qed.

Lemma rankFn_trans (a b c : ProcessedStudent.t) :
  JS.before rankFn a b = true -> JS.before rankFn b c = true ->
  JS.before rankFn a c = true.
Proof.
  rewrite !before_rankFn. intros [H1|[H1 L1]] [H2|[H2 L2]]; try (left; lia).
  right. split; [lia|]. now apply Qle_trans with (ProcessedStudent.totalScore b).
Qed.

(** ** The per-student pass *)

Section PipelineFacts.
Variable CORE_SUBJECTS : list string.
Variable stats : ClassStatistics.t.
Variables facilitatorMap gradingRemarks : gmap string string.
Variable staffList : list StaffMember.t.
Variable scienceBaseScore : Q.

Local Abbreviation compute student :=
  (computeSubject stats facilitatorMap gradingRemarks staffList scienceBaseScore student).
Local Abbreviation process subjectList :=
  (processStudent CORE_SUBJECTS stats facilitatorMap subjectList gradingRemarks
     staffList scienceBaseScore).
Local Abbreviation run students subjectList :=
  (processStudentData CORE_SUBJECTS stats students facilitatorMap subjectList
     gradingRemarks staffList scienceBaseScore).

(** The loop over the subject list pushes one computed subject per subject,
    in list order. *)
Lemma subjectStep_fold (student : StudentData.t) (subjectList : list string)
    (acc : Q * list ComputedSubject.t) :
  snd (fold_left (subjectStep stats facilitatorMap gradingRemarks staffList
                    scienceBaseScore student) subjectList acc)
  = (snd acc ++ map (compute student) subjectList)%list.
Proof.
  revert acc. induction subjectList as [|s r IH]; intros acc; cbn [fold_left map].
  - now rewrite app_nil_r.
  - rewrite IH. cbn [subjectStep snd]. now rewrite <- app_assoc.
Qed.

Lemma processStudent_subjects (student : StudentData.t) (subjectList : list string) :
  ProcessedStudent.subjects (process subjectList student)
  = map (compute student) subjectList.
Proof. cbn [processStudent ProcessedStudent.subjects]. now rewrite subjectStep_fold. Qed.

Lemma processStudent_aggregate (student : StudentData.t) (subjectList : list string) :
  ProcessedStudent.bestSixAggregate (process subjectList student)
  = bestSix CORE_SUBJECTS (map (compute student) subjectList).
Proof. cbn [processStudent ProcessedStudent.bestSixAggregate]. now rewrite subjectStep_fold. Qed.

(** Ranking only writes the rank. *)
Lemma assignRanks_lookup (l : list ProcessedStudent.t) (k : Z) (i : nat) :
  assignRanks k l !! i
  = (fun p => ProcessedStudent.set_rank p (k + Z.of_nat i + 1)) <$> l !! i.
Proof.
  revert k i. induction l as [|p r IH]; intros k i; [reflexivity|].
  destruct i as [|i]; cbn.
  - do 2 f_equal. lia.
  - rewrite IH. destruct (r !! i); cbn; [|reflexivity]. do 2 f_equal. lia.
Qed.

Lemma assignRanks_ranks (l : list ProcessedStudent.t) (k : Z) :
  map ProcessedStudent.rank (assignRanks k l)
  = map (fun i => k + Z.of_nat i) (seq 1 (length l)).
Proof.
  revert k. induction l as [|p r IH]; intros k; [reflexivity|].
  cbn [assignRanks map length seq ProcessedStudent.set_rank ProcessedStudent.rank].
  f_equal; try lia. rewrite IH, <- (seq_shift (length r) 1), map_map.
  apply map_ext. intros i. lia.
Qed.

Lemma assignRanks_erase (l : list ProcessedStudent.t) (k : Z) :
  Forall (fun p => ProcessedStudent.rank p = 0) l ->
  map (fun p => ProcessedStudent.set_rank p 0) (assignRanks k l) = l.
Proof.
  revert k. induction l as [|p r IH]; intros k H; [reflexivity|].
  inversion H as [|? ? Hp Hr]; subst. cbn [assignRanks map]. rewrite IH by exact Hr.
  f_equal. destruct p; cbn in *. now subst.
Qed.

Lemma assignRanks_length (l : list ProcessedStudent.t) (k : Z) :
  length (assignRanks k l) = length l.
Proof. revert k. induction l; intros k; cbn; [reflexivity|]. now rewrite IHl. Qed.

Lemma processed_rank_zero (students : list StudentData.t) (subjectList : list string) :
  Forall (fun p => ProcessedStudent.rank p = 0)
         (JS.sort rankFn (map (process subjectList) students)).
Proof.
  rewrite sort_perm. apply Forall_forall. intros p Hp.
  apply list_elem_of_In, in_map_iff in Hp. destruct Hp as [s [<- _]]. reflexivity.
Qed.

Lemma tiedAt_before (aggregate : Z) (totalScore : Q) (a b : ProcessedStudent.t) :
  tiedAt aggregate totalScore a = true -> tiedAt aggregate totalScore b = true ->
  JS.before rankFn a b = true.
Proof.
  unfold tiedAt. rewrite !andb_true_iff, !Z.eqb_eq, !Qeq_bool_iff.
  intros [Ha Ta] [Hb Tb]. apply before_rankFn. right. split; [lia|].
  rewrite Ta, Tb. apply Qle_refl.
Qed.

(** *** The best-six aggregate does not depend on the subject order *)

Lemma filter_perm {A : Type} (f : A -> bool) (l l' : list A) :
  l ≡ₚ l' -> List.filter f l ≡ₚ List.filter f l'.
Proof.
  induction 1 as [|x l l' _ IH|x y l|l l' l'' _ IH1 _ IH2]; cbn.
  - reflexivity.
  - destruct (f x); [now constructor|exact IH].
  - destruct (f x), (f y); try reflexivity. apply perm_swap.
  - now transitivity (List.filter f l').
Qed.

Lemma sumGradeValues_fold (l : list ComputedSubject.t) (z : Z) :
  fold_left (fun sum s => sum + ComputedSubject.gradeValue s) l z
  = fold_left Z.add (map ComputedSubject.gradeValue l) z.
Proof. revert z. induction l as [|x r IH]; intros z; cbn; [reflexivity|apply IH]. Qed.

Lemma sorted_gradeValues (l : list ComputedSubject.t) :
  StronglySorted Z.le (map ComputedSubject.gradeValue (JS.sort sortFn l)).
Proof.
  apply (StronglySorted_fmap ComputedSubject.gradeValue
           (fun a b => JS.before sortFn a b = true) Z.le).
  - intros a b H. apply before_sortFn in H. lia.
  - apply sort_StronglySorted; [apply sortFn_total|apply sortFn_trans].
Qed.

(** The grade values of a sorted partition are those of the partition in
    ascending order, whatever the order in which the subjects came. *)
Lemma sorted_gradeValues_perm (l l' : list ComputedSubject.t) :
  l ≡ₚ l' ->
  map ComputedSubject.gradeValue (JS.sort sortFn l)
  = map ComputedSubject.gradeValue (JS.sort sortFn l').
Proof.
  intros H. apply (StronglySorted_unique Z.le); try apply sorted_gradeValues.
  apply Permutation_map. now rewrite !sort_perm.
Qed.

Lemma best_slice_perm (n : nat) (l l' : list ComputedSubject.t) :
  l ≡ₚ l' ->
  sumGradeValues (JS.slice0 n (JS.sort sortFn l))
  = sumGradeValues (JS.slice0 n (JS.sort sortFn l')).
Proof.
  intros H. unfold sumGradeValues, JS.slice0.
  rewrite !sumGradeValues_fold, <- !firstn_map.
  now rewrite (sorted_gradeValues_perm l l' H).
Qed.

Lemma bestSix_perm (l l' : list ComputedSubject.t) :
  l ≡ₚ l' -> bestSix CORE_SUBJECTS l = bestSix CORE_SUBJECTS l'.
Proof.
  intros H. unfold bestSix, best4Cores, best2Electives.
  f_equal; apply best_slice_perm, filter_perm, H.
Qed.

Lemma assignRanks_aggregates (l : list ProcessedStudent.t) (k : Z) :
  map ProcessedStudent.bestSixAggregate (assignRanks k l)
  = map ProcessedStudent.bestSixAggregate l.
Proof. revert k. induction l as [|p r IH]; intros k; cbn; [reflexivity|]. now rewrite IH. Qed.

Lemma sorted_aggregates (l : list ProcessedStudent.t) :
  StronglySorted Z.le (map ProcessedStudent.bestSixAggregate (JS.sort rankFn l)).
Proof.
  apply (StronglySorted_fmap ProcessedStudent.bestSixAggregate
           (fun a b => JS.before rankFn a b = true) Z.le).
  - intros a b H. apply before_rankFn in H. lia.
  - apply sort_StronglySorted; [apply rankFn_total|apply rankFn_trans].
Qed.

(** C4.  For a student, fixed statistics and settings, the best-six
    aggregate is the same for a subject list and for any permutation of it;
    so the aggregates of the ranked cohort are the same list for both. *)
Theorem bestSixAggregate_subject_order (students : list StudentData.t)
    (student : StudentData.t) (subjectList subjectList' : list string) :
  subjectList ≡ₚ subjectList' ->
  ProcessedStudent.bestSixAggregate (process subjectList student)
  = ProcessedStudent.bestSixAggregate (process subjectList' student)
  /\ map ProcessedStudent.bestSixAggregate (run students subjectList)
     = map ProcessedStudent.bestSixAggregate (run students subjectList').
Proof.
  intros H.
  assert (E : forall s, ProcessedStudent.bestSixAggregate (process subjectList s)
                        = ProcessedStudent.bestSixAggregate (process subjectList' s)).
  { intros s. rewrite !processStudent_aggregate. apply bestSix_perm.
    now apply Permutation_map. }
  split; [apply E|].
  unfold processStudentData. rewrite !assignRanks_aggregates.
  apply (StronglySorted_unique Z.le); try apply sorted_aggregates.
  rewrite !sort_perm, !map_map. erewrite map_ext; [reflexivity|]. intros s. apply E.
Qed.

(** C3.  The list returned by [processStudentData] is sorted: of two adjacent
    records the earlier has the smaller or equal aggregate and, when the
    aggregates are equal, the greater or equal total score.  Its ranks are
    1, 2, ..., N in list order, N being the size of the cohort.  It holds the
    processed records of the cohort, and the records that tie on both fields
    come in their input order. *)
Theorem processStudentData_ranked (students : list StudentData.t)
    (subjectList : list string) :
  let out := run students subjectList in
  let processed := map (process subjectList) students in
  let erase := map (fun p => ProcessedStudent.set_rank p 0) in
  (forall (i : nat) (a b : ProcessedStudent.t),
      out !! i = Some a -> out !! S i = Some b ->
      ProcessedStudent.bestSixAggregate a <= ProcessedStudent.bestSixAggregate b /\
      (ProcessedStudent.bestSixAggregate a = ProcessedStudent.bestSixAggregate b ->
       (ProcessedStudent.totalScore b <= ProcessedStudent.totalScore a)%Q)) /\
  map ProcessedStudent.rank out = map Z.of_nat (seq 1 (length students)) /\
  erase out ≡ₚ processed /\
  (forall (aggregate : Z) (totalScore : Q),
      List.filter (tiedAt aggregate totalScore) (erase out)
      = List.filter (tiedAt aggregate totalScore) processed).
Proof.
  intros out processed erase. subst out erase. unfold processStudentData. fold processed.
  split; [|split; [|split]].
  - intros i a b Ha Hb. rewrite assignRanks_lookup in Ha, Hb.
    destruct (JS.sort rankFn processed !! i) as [a0|] eqn:Ea; [|discriminate].
    destruct (JS.sort rankFn processed !! S i) as [b0|] eqn:Eb; [|discriminate].
    cbn in Ha, Hb. injection Ha as <-. injection Hb as <-.
    cbn [ProcessedStudent.set_rank ProcessedStudent.bestSixAggregate
         ProcessedStudent.totalScore].
    assert (H : JS.before rankFn a0 b0 = true).
    { apply (StronglySorted_lookup _ _
               (sort_StronglySorted rankFn rankFn_total rankFn_trans processed)
               i (S i)); [lia|assumption..]. }
    apply before_rankFn in H. destruct H as [H|[H L]]; split; try lia; intros; try lia.
    exact L.
  - rewrite assignRanks_ranks, sort_length. unfold processed. rewrite length_map.
    apply map_ext. intros i. lia.
  - rewrite assignRanks_erase by apply processed_rank_zero. apply sort_perm.
  - intros aggregate totalScore.
    rewrite assignRanks_erase by apply processed_rank_zero.
    apply sort_stable. apply tiedAt_before.
Qed.

(** *** The records of the output *)

Lemma assignRanks_In (l : list ProcessedStudent.t) (k : Z) (p : ProcessedStudent.t) :
  In p (assignRanks k l) ->
  exists p0, In p0 l /\ p = ProcessedStudent.set_rank p0 (ProcessedStudent.rank p).
Proof.
  revert k. induction l as [|x l IH]; intros k; cbn; [tauto|].
  intros [<-|H]; [exists x; split; [now left|reflexivity]|].
  destruct (IH _ H) as (p0 & Hin & E). exists p0. split; [now right|exact E].
Qed.

Lemma assignRanks_In_inv (l : list ProcessedStudent.t) (k : Z) (p0 : ProcessedStudent.t) :
  In p0 l -> exists r, In (ProcessedStudent.set_rank p0 r) (assignRanks k l).
Proof.
  revert k. induction l as [|x l IH]; intros k; cbn; [tauto|].
  intros [->|H]; [exists (k + 1); now left|].
  destruct (IH (k + 1) H) as [r Hr]. exists r. now right.
Qed.

(** Every record of the output is the processed record of a student of the
    cohort, with its rank filled in; and every student has one. *)
Lemma processStudentData_from_student (students : list StudentData.t)
    (subjectList : list string) (p : ProcessedStudent.t) :
  In p (run students subjectList) ->
  exists student, In student students /\
    p = ProcessedStudent.set_rank (process subjectList student) (ProcessedStudent.rank p).
Proof.
  unfold processStudentData. intros H.
  apply assignRanks_In in H. destruct H as (p0 & Hin & E).
  apply (Permutation_in _ (sort_perm rankFn _)) in Hin.
  apply in_map_iff in Hin. destruct Hin as (student & <- & Hs).
  exists student. split; [exact Hs|exact E].
Qed.

Lemma processStudentData_of_student (students : list StudentData.t)
    (subjectList : list string) (student : StudentData.t) :
  In student students ->
  exists r, In (ProcessedStudent.set_rank (process subjectList student) r)
               (run students subjectList).
Proof.
  intros Hs. unfold processStudentData. apply assignRanks_In_inv.
  apply (Permutation_in _ (Permutation_sym (sort_perm rankFn _))).
  apply in_map. exact Hs.
Qed.

(** *** Category *)

Lemma categoryOf_cases (aggregate : Z) :
  categoryOf aggregate <> "Average" /\
  ((aggregate <= 10 /\ categoryOf aggregate = "Distinction") \/
   (10 < aggregate <= 20 /\ categoryOf aggregate = "Merit") \/
   (20 < aggregate <= 36 /\ categoryOf aggregate = "Pass") \/
   (36 < aggregate /\ categoryOf aggregate = "Fail")).
Proof.
  unfold categoryOf.
  destruct (Z.leb_spec aggregate 10); [split; [discriminate|left; split; [lia|reflexivity]]|].
  destruct (Z.leb_spec aggregate 20);
    [split; [discriminate|right; left; split; [lia|reflexivity]]|].
  destruct (Z.leb_spec aggregate 36);
    [split; [discriminate|right; right; left; split; [lia|reflexivity]]|].
  split; [discriminate|right; right; right; split; [lia|reflexivity]].
Qed.

(** C10.  The category of every record returned by [processStudentData] is
    Distinction for an aggregate of at most 10, Merit for at most 20, Pass
    for at most 36 and Fail above; the placeholder Average never shows. *)
Theorem category_of_aggregate (students : list StudentData.t)
    (subjectList : list string) (p : ProcessedStudent.t) :
  In p (run students subjectList) ->
  let aggregate := ProcessedStudent.bestSixAggregate p in
  ProcessedStudent.category p <> "Average" /\
  ((aggregate <= 10 /\ ProcessedStudent.category p = "Distinction") \/
   (10 < aggregate <= 20 /\ ProcessedStudent.category p = "Merit") \/
   (20 < aggregate <= 36 /\ ProcessedStudent.category p = "Pass") \/
   (36 < aggregate /\ ProcessedStudent.category p = "Fail")).
Proof.
  intros H. apply processStudentData_from_student in H.
  destruct H as (student & _ & ->).
  cbn [ProcessedStudent.set_rank ProcessedStudent.category
       ProcessedStudent.bestSixAggregate processStudent].
  apply categoryOf_cases.
Qed.

(** *** Remarks *)

Example trim_example : JS.trim "  Good effort. " = "Good effort." /\ JS.trim "   " = "".
Proof. split; reflexivity. Qed.

Lemma hasText_of_trim (t : string) : JS.trim t <> "" -> hasText (Some t) = true.
Proof.
  intros H. unfold hasText. apply andb_true_iff. split.
  - destruct t; [now elim H|reflexivity].
  - apply negb_true_iff, String.eqb_neq, H.
Qed.

Lemma manualRemarks_note (finalRemark : string) (computedSubjects : list ComputedSubject.t) :
  manualRemarks finalRemark computedSubjects
  = (finalRemark, weaknessNote computedSubjects).
Proof.
  unfold manualRemarks, weaknessNote, urgentNote. fold isWeak.
  f_equal. now destruct (List.filter isWeak computedSubjects).
Qed.

(** C5, as the code has it.  For a student of the cohort whose final remark
    is not empty after trimming, the record returned by [processStudentData]
    has the final remark, unchanged and with nothing appended, as its overall
    remark; the weakness note is returned beside it, in [weaknessAnalysis]:
    it names every subject with a grade value of 7 or more, comma-joined
    after "Needs urgent improvement in: " and closed by a full stop, and is
    empty when there is no such subject. *)
Theorem finalRemark_verbatim (students : list StudentData.t)
    (subjectList : list string) (student : StudentData.t) (finalRemark : string) :
  In student students ->
  StudentData.finalRemark student = Some finalRemark ->
  JS.trim finalRemark <> "" ->
  exists p, In p (run students subjectList) /\
    ProcessedStudent.id p = StudentData.id student /\
    ProcessedStudent.subjects p = map (compute student) subjectList /\
    ProcessedStudent.overallRemark p = finalRemark /\
    ProcessedStudent.weaknessAnalysis p = weaknessNote (ProcessedStudent.subjects p).
Proof.
  intros Hs Hf Ht.
  destruct (processStudentData_of_student students subjectList student Hs) as [r Hr].
  eexists. split; [exact Hr|].
  cbn [ProcessedStudent.set_rank ProcessedStudent.id ProcessedStudent.subjects
       ProcessedStudent.overallRemark ProcessedStudent.weaknessAnalysis].
  split; [reflexivity|]. split; [apply processStudent_subjects|].
  cbn [processStudent ProcessedStudent.overallRemark ProcessedStudent.weaknessAnalysis
       ProcessedStudent.subjects].
  unfold assembleRemarks. rewrite Hf, (hasText_of_trim _ Ht), manualRemarks_note.
  split; reflexivity.
Qed.

(** *** Pass-through fields *)

Lemma processStudent_passedThrough (subjectList : list string)
    (student : StudentData.t) (r : Z) :
  passedThrough student (ProcessedStudent.set_rank (process subjectList student) r).
Proof.
  unfold passedThrough. cbn. repeat (split; [reflexivity|]).
  intros a -> Ha. destruct a; [now elim Ha|reflexivity].
Qed.

(** C9, as the code has it.  Every student of the cohort has a record in the
    output of [processStudentData], and every record of the output belongs to
    a student of the cohort, such that age, promotedTo, conduct, interest and
    skills of the record are the student's, and the attendance is the
    student's when it is present and not empty, and "0" otherwise. *)
Theorem descriptive_fields_passed_through (students : list StudentData.t)
    (subjectList : list string) :
  (forall student, In student students ->
     exists p, In p (run students subjectList) /\
       ProcessedStudent.id p = StudentData.id student /\ passedThrough student p) /\
  (forall p, In p (run students subjectList) ->
     exists student, In student students /\
       ProcessedStudent.id p = StudentData.id student /\ passedThrough student p).
Proof.
  split.
  - intros student Hs.
    destruct (processStudentData_of_student students subjectList student Hs) as [r Hr].
    eexists. split; [exact Hr|]. split; [reflexivity|apply processStudent_passedThrough].
  - intros p Hp.
    destruct (processStudentData_from_student students subjectList p Hp) as (student & Hs & ->).
    exists student. split; [exact Hs|]. split; [reflexivity|apply processStudent_passedThrough].
Qed.

End PipelineFacts.

(** ** Facilitator statistics *)

Section StatsInvariant.

(** [P] is a property of the entries of [statsMap] that holds after the
    first count of a fresh entry and is kept by every further count, for
    subjects that satisfy [C]. *)
Variable C : ComputedSubject.t -> Prop.
Variable P : FacilitatorStats.t -> Prop.
Hypothesis P_fresh : forall sub, C sub -> P (countSubject sub (freshStats sub)).
Hypothesis P_count : forall sub e, C sub -> P e -> P (countSubject sub e).

Lemma alterKey_Forall (key : string) (f : FacilitatorStats.t -> FacilitatorStats.t)
    (m : list (string * FacilitatorStats.t)) :
  (forall e, P e -> P (f e)) ->
  Forall (fun ke => P (snd ke)) m -> Forall (fun ke => P (snd ke)) (alterKey key f m).
Proof.
  intros Hf. induction 1 as [|[k e] r He Hr IH]; cbn [alterKey]; [constructor|].
  destruct (String.eqb k key); constructor; cbn [snd] in *;
    first [apply Hf, He | exact He | exact Hr | exact IH].
Qed.

Lemma alterKey_fresh (key : string) (f : FacilitatorStats.t -> FacilitatorStats.t)
    (m : list (string * FacilitatorStats.t)) (e : FacilitatorStats.t) :
  hasKey key m = false ->
  alterKey key f (m ++ [(key, e)]) = (m ++ [(key, f e)])%list.
Proof.
  induction m as [|[k x] r IH]; cbn.
  - intros _. now rewrite String.eqb_refl.
  - intros H. apply orb_false_iff in H. destruct H as [Hk Hr].
    rewrite Hk, IH by exact Hr. reflexivity.
Qed.

Lemma statsStep_Forall (m : list (string * FacilitatorStats.t)) (sub : ComputedSubject.t) :
  C sub ->
  Forall (fun ke => P (snd ke)) m -> Forall (fun ke => P (snd ke)) (statsStep m sub).
Proof.
  intros Hc Hm. unfold statsStep. destruct (hasKey (statsKey sub) m) eqn:E.
  - apply alterKey_Forall; [intros e; now apply P_count|exact Hm].
  - rewrite alterKey_fresh by exact E. apply Forall_app. split; [exact Hm|].
    constructor; [now apply P_fresh|constructor].
Qed.

Lemma subjects_fold_Forall (subs : list ComputedSubject.t)
    (m : list (string * FacilitatorStats.t)) :
  Forall C subs ->
  Forall (fun ke => P (snd ke)) m ->
  Forall (fun ke => P (snd ke)) (fold_left statsStep subs m).
Proof.
  intros Hs. revert m. induction Hs as [|sub r Hc Hr IH]; intros m Hm; cbn; [exact Hm|].
  apply IH. now apply statsStep_Forall.
Qed.

Lemma students_fold_Forall (processedStudents : list ProcessedStudent.t)
    (m : list (string * FacilitatorStats.t)) :
  Forall (fun st => Forall C (ProcessedStudent.subjects st)) processedStudents ->
  Forall (fun ke => P (snd ke)) m ->
  Forall (fun ke => P (snd ke))
    (fold_left (fun statsMap student =>
                  fold_left statsStep (ProcessedStudent.subjects student) statsMap)
               processedStudents m).
Proof.
  intros Hs. revert m. induction Hs as [|st r Hc Hr IH]; intros m Hm; cbn; [exact Hm|].
  apply IH. now apply subjects_fold_Forall.
Qed.

Lemma collectStats_Forall (processedStudents : list ProcessedStudent.t) :
  Forall (fun st => Forall C (ProcessedStudent.subjects st)) processedStudents ->
  Forall (fun ke => P (snd ke)) (collectStats processedStudents).
Proof. intros Hs. apply students_fold_Forall; [exact Hs|constructor]. Qed.

End StatsInvariant.

(** Every record of the output is a finished entry of [statsMap]. *)
Lemma calculateFacilitatorStats_In (processedStudents : list ProcessedStudent.t)
    (r : FacilitatorStats.t) :
  In r (calculateFacilitatorStats processedStudents) ->
  exists ke, In ke (collectStats processedStudents) /\ r = finishStats (snd ke).
Proof.
  unfold calculateFacilitatorStats. intros H.
  apply (Permutation_in _ (sort_perm _ _)) in H.
  rewrite map_map in H. apply in_map_iff in H. destruct H as (ke & <- & Hin).
  exists ke. split; [exact Hin|reflexivity].
Qed.

Lemma calculateFacilitatorStats_invariant (C : ComputedSubject.t -> Prop)
    (P : FacilitatorStats.t -> Prop) (processedStudents : list ProcessedStudent.t)
    (r : FacilitatorStats.t) :
  (forall sub, C sub -> P (countSubject sub (freshStats sub))) ->
  (forall sub e, C sub -> P e -> P (countSubject sub e)) ->
  Forall (fun st => Forall C (ProcessedStudent.subjects st)) processedStudents ->
  In r (calculateFacilitatorStats processedStudents) ->
  exists stat, P stat /\ r = finishStats stat.
Proof.
  intros Hfresh Hcount Hs Hr.
  destruct (calculateFacilitatorStats_In _ _ Hr) as (ke & Hin & ->).
  exists (snd ke). split; [|reflexivity].
  pose proof (collectStats_Forall C P Hfresh Hcount processedStudents Hs) as HF.
  rewrite Forall_forall in HF. apply (HF ke). now apply list_elem_of_In.
Qed.

(** *** Grade counts *)

Lemma sum_perm (l l' : list Z) : l ≡ₚ l' -> foldr Z.add 0 l = foldr Z.add 0 l'.
Proof. induction 1; cbn; lia. Qed.

(** Counting one more grade adds one to the sum of all the counts. *)
Lemma sumValues_count (gc : gmap string Z) (g : string) :
  sumValues (<[g := default 0 (gc !! g) + 1]> gc) = sumValues gc + 1.
Proof.
  unfold sumValues. destruct (gc !! g) as [v|] eqn:E; cbn [default].
  - rewrite <- (insert_delete_eq gc).
    rewrite (sum_perm _ _ (Permutation_map snd
               (map_to_list_insert (delete g gc) g (v + 1) (lookup_delete_eq gc g)))).
    rewrite <- (sum_perm _ _ (Permutation_map snd (map_to_list_delete gc g v E))).
    cbn. lia.
  - rewrite (sum_perm _ _ (Permutation_map snd (map_to_list_insert gc g (0 + 1) E))).
    cbn. lia.
Qed.

Lemma sumOver_cons (b : string) (bands : list string) (gc : gmap string Z) :
  sumOver (b :: bands) gc = default 0 (gc !! b) + sumOver bands gc.
Proof. reflexivity. Qed.

Lemma sumOver_insert_notin (bands : list string) (gc : gmap string Z) (g : string) (v : Z) :
  ~ In g bands -> sumOver bands (<[g := v]> gc) = sumOver bands gc.
Proof.
  induction bands as [|b r IH]; [reflexivity|]. intros H.
  rewrite !sumOver_cons, lookup_insert_ne, IH; [reflexivity| |].
  - intros Hr. apply H. now right.
  - intros ->. apply H. now left.
Qed.

(** Counting a grade of a duplicate-free list of bands adds one to the sum
    of the counts of these bands. *)
Lemma sumOver_count (bands : list string) (gc : gmap string Z) (g : string) :
  List.NoDup bands -> In g bands ->
  sumOver bands (<[g := default 0 (gc !! g) + 1]> gc) = sumOver bands gc + 1.
Proof.
  induction 1 as [|b r Hb Hr IH]; [cbn; tauto|].
  intros Hg. rewrite !sumOver_cons. destruct Hg as [->|Hg].
  - rewrite lookup_insert_eq, sumOver_insert_notin by exact Hb.
    destruct (gc !! g); cbn; lia.
  - rewrite lookup_insert_ne by (intros ->; contradiction). rewrite IH by exact Hg. lia.
Qed.

Lemma gradeBands_NoDup : List.NoDup gradeBands.
Proof.
  unfold gradeBands.
  repeat (constructor; [cbn; intuition discriminate|]).
  constructor.
Qed.

Lemma sumValues_initial : sumValues initialGradeCounts = 0.
Proof. vm_compute. reflexivity. Qed.

Lemma sumOver_initial : sumOver gradeBands initialGradeCounts = 0.
Proof. vm_compute. reflexivity. Qed.

(** The grades that [processStudentData] writes. *)
Lemma processStudentData_grades (CORE_SUBJECTS : list string)
    (stats : ClassStatistics.t) (students : list StudentData.t)
    (facilitatorMap : gmap string string) (subjectList : list string)
    (gradingRemarks : gmap string string) (staffList : list StaffMember.t)
    (scienceBaseScore : Q) :
  Forall (fun st => Forall pipelineGrade (ProcessedStudent.subjects st))
    (processStudentData CORE_SUBJECTS stats students facilitatorMap subjectList
       gradingRemarks staffList scienceBaseScore).
Proof.
  apply Forall_forall. intros p Hp. apply list_elem_of_In in Hp.
  apply processStudentData_from_student in Hp. destruct Hp as (student & _ & ->).
  cbn [ProcessedStudent.set_rank ProcessedStudent.subjects].
  rewrite processStudent_subjects. apply Forall_forall. intros c Hc.
  apply list_elem_of_In, in_map_iff in Hc. destruct Hc as (subject & <- & _).
  unfold pipelineGrade, computeSubject.
  cbn [ComputedSubject.grade ComputedSubject.gradeValue].
  pose proof (getGradeFromZScore_value_range
                (studentScore scienceBaseScore subject student)
                (ClassStatistics.subjectMeans stats !! subject)
                (ClassStatistics.subjectStdDevs stats !! subject) gradingRemarks) as H.
  cbv zeta in H. tauto.
Qed.

(** C6.  For every record returned by [calculateFacilitatorStats], the values
    of [gradeCounts] sum to [studentCount]; on the output of
    [processStudentData], whose grades are the nine bands, this is the sum
    of the counts of the nine bands. *)
Theorem gradeCounts_sum :
  (forall (processedStudents : list ProcessedStudent.t) (r : FacilitatorStats.t),
      In r (calculateFacilitatorStats processedStudents) ->
      sumValues (FacilitatorStats.gradeCounts r) = FacilitatorStats.studentCount r) /\
  (forall (CORE_SUBJECTS : list string) (stats : ClassStatistics.t)
          (students : list StudentData.t) (facilitatorMap : gmap string string)
          (subjectList : list string) (gradingRemarks : gmap string string)
          (staffList : list StaffMember.t) (scienceBaseScore : Q)
          (r : FacilitatorStats.t),
      In r (calculateFacilitatorStats
              (processStudentData CORE_SUBJECTS stats students facilitatorMap
                 subjectList gradingRemarks staffList scienceBaseScore)) ->
      sumOver gradeBands (FacilitatorStats.gradeCounts r) = FacilitatorStats.studentCount r).
Proof.
  split.
  - intros ps r Hr.
    destruct (calculateFacilitatorStats_invariant (fun _ => True)
                (fun e => sumValues (FacilitatorStats.gradeCounts e)
                          = FacilitatorStats.studentCount e) ps r) as (stat & Hs & ->);
      try exact Hr.
    + intros sub _. cbn [countSubject freshStats FacilitatorStats.gradeCounts
                         FacilitatorStats.studentCount].
      rewrite sumValues_count, sumValues_initial. reflexivity.
    + intros sub e _ He. cbn [countSubject FacilitatorStats.gradeCounts
                              FacilitatorStats.studentCount].
      rewrite sumValues_count, He. reflexivity.
    + apply Forall_forall. intros st _. apply Forall_forall. intros c _. exact I.
    + exact Hs.
  - intros CORE stats students fm sl gr staff base r Hr.
    destruct (calculateFacilitatorStats_invariant pipelineGrade
                (fun e => sumOver gradeBands (FacilitatorStats.gradeCounts e)
                          = FacilitatorStats.studentCount e)
                (processStudentData CORE stats students fm sl gr staff base) r)
      as (stat & Hs & ->);
      try exact Hr.
    + intros sub [Hg _]. cbn [countSubject freshStats FacilitatorStats.gradeCounts
                              FacilitatorStats.studentCount].
      rewrite sumOver_count, sumOver_initial by (exact gradeBands_NoDup || exact Hg).
      reflexivity.
    + intros sub e [Hg _] He. cbn [countSubject FacilitatorStats.gradeCounts
                                   FacilitatorStats.studentCount].
      rewrite sumOver_count, He by (exact gradeBands_NoDup || exact Hg). reflexivity.
    + apply processStudentData_grades.
    + exact Hs.
Qed.

(** *** Performance percentage *)








(** * Instances on the small cohort *)

(** The ranks of the three students are 1, 2, 3, and the first two records
    are in order. *)
Lemma processStudentData_ranked_witness :
  map ProcessedStudent.rank demoRun = map Z.of_nat (seq 1 (length demoStudents)) /\
  (ProcessedStudent.bestSixAggregate amaRecord <= ProcessedStudent.bestSixAggregate kofiRecord /\
   (ProcessedStudent.bestSixAggregate amaRecord = ProcessedStudent.bestSixAggregate kofiRecord ->
    (ProcessedStudent.totalScore kofiRecord <= ProcessedStudent.totalScore amaRecord)%Q)).
Proof.
  pose proof (processStudentData_ranked demoCore demoStats ∅ ∅ [] 100%Q
                demoStudents demoSubjects) as H.
  cbv zeta in H. destruct H as (Hadj & Hrank & _). split; [exact Hrank|].
  apply (Hadj 0%nat amaRecord kofiRecord); vm_compute; reflexivity.
Defined.

(** Reversing the subject list leaves the aggregate of Kofi unchanged. *)
Lemma bestSixAggregate_subject_order_witness :
  ProcessedStudent.bestSixAggregate
    (processStudent demoCore demoStats ∅ demoSubjects ∅ [] 100%Q kofi)
  = ProcessedStudent.bestSixAggregate
      (processStudent demoCore demoStats ∅ (rev demoSubjects) ∅ [] 100%Q kofi).
Proof.
  apply (bestSixAggregate_subject_order demoCore demoStats ∅ ∅ [] 100%Q
           demoStudents kofi demoSubjects (rev demoSubjects)).
  apply Permutation_rev.
Defined.

(** Kofi has the final remark "Keep trying."; it is his overall remark. *)
Lemma finalRemark_verbatim_witness :
  exists p, In p demoRun /\
    ProcessedStudent.id p = StudentData.id kofi /\
    ProcessedStudent.subjects p
    = map (computeSubject demoStats ∅ ∅ [] 100%Q kofi) demoSubjects /\
    ProcessedStudent.overallRemark p = "Keep trying." /\
    ProcessedStudent.weaknessAnalysis p = weaknessNote (ProcessedStudent.subjects p).
Proof.
  apply (finalRemark_verbatim demoCore demoStats ∅ ∅ [] 100%Q demoStudents
           demoSubjects kofi "Keep trying.").
  - right. left. reflexivity.
  - reflexivity.
  - vm_compute. discriminate.
Defined.

(** The claim C5 as worded fails on Kofi: Mathematics is graded E8, so there
    is a weakness note, but the overall remark is the final remark alone and
    not the final remark with the note appended, whatever the separator. *)
Lemma finalRemark_note_not_appended :
  In kofi demoStudents /\
  StudentData.finalRemark kofi = Some "Keep trying." /\
  JS.trim "Keep trying." <> "" /\
  demoRun !! 1%nat = Some kofiRecord /\
  ProcessedStudent.weaknessAnalysis kofiRecord = "Needs urgent improvement in: Mathematics." /\
  ProcessedStudent.overallRemark kofiRecord = "Keep trying." /\
  ~ (exists sep, ProcessedStudent.overallRemark kofiRecord
                 = "Keep trying." ++ sep ++ "Needs urgent improvement in: Mathematics.").
Proof.
  split; [right; left; reflexivity|]. split; [reflexivity|].
  split; [vm_compute; discriminate|]. split; [vm_compute; reflexivity|].
  split; [vm_compute; reflexivity|]. split; [vm_compute; reflexivity|].
  intros [sep H]. change (ProcessedStudent.overallRemark kofiRecord) with "Keep trying." in H.
  cbn in H. injection H as H. destruct sep; discriminate.
Qed.

(** Ama's descriptive fields reach her record. *)
Lemma descriptive_fields_passed_through_witness :
  exists p, In p demoRun /\
    ProcessedStudent.id p = StudentData.id ama /\ passedThrough ama p.
Proof.
  apply (proj1 (descriptive_fields_passed_through demoCore demoStats ∅ ∅ [] 100%Q
                  demoStudents demoSubjects) ama).
  left. reflexivity.
Defined.

(** The claim C9 as worded fails on Kofi: his attendance is the empty text,
    and his record has "0". *)
Lemma attendance_defaulted :
  In kofi demoStudents /\
  demoRun !! 1%nat = Some kofiRecord /\
  ProcessedStudent.id kofiRecord = StudentData.id kofi /\
  StudentData.attendance kofi = Some "" /\
  ProcessedStudent.attendance kofiRecord = "0" /\
  Some (ProcessedStudent.attendance kofiRecord) <> StudentData.attendance kofi.
Proof.
  split; [right; left; reflexivity|]. split; [vm_compute; reflexivity|].
  split; [reflexivity|]. split; [reflexivity|]. split; [reflexivity|].
  cbn. discriminate.
Qed.

(** Ama's aggregate is 9 and her category Distinction. *)
Lemma category_of_aggregate_witness :
  ProcessedStudent.category amaRecord <> "Average" /\
  ((ProcessedStudent.bestSixAggregate amaRecord <= 10
    /\ ProcessedStudent.category amaRecord = "Distinction") \/
   (10 < ProcessedStudent.bestSixAggregate amaRecord <= 20
    /\ ProcessedStudent.category amaRecord = "Merit") \/
   (20 < ProcessedStudent.bestSixAggregate amaRecord <= 36
    /\ ProcessedStudent.category amaRecord = "Pass") \/
   (36 < ProcessedStudent.bestSixAggregate amaRecord
    /\ ProcessedStudent.category amaRecord = "Fail")).
Proof.
  apply (category_of_aggregate demoCore demoStats ∅ ∅ [] 100%Q demoStudents
           demoSubjects amaRecord).
  vm_compute. left. reflexivity.
Defined.

(** The Science group of the small cohort: three students, three grades. *)
Lemma gradeCounts_sum_witness :
  sumValues (FacilitatorStats.gradeCounts demoScienceStats)
  = FacilitatorStats.studentCount demoScienceStats /\
  sumOver gradeBands (FacilitatorStats.gradeCounts demoScienceStats)
  = FacilitatorStats.studentCount demoScienceStats.
Proof.
  split.
  - apply (proj1 gradeCounts_sum demoRun demoScienceStats).
    vm_compute. left. reflexivity.
  - apply (proj2 gradeCounts_sum demoCore demoStats demoStudents ∅ demoSubjects ∅ [] 100%Q
             demoScienceStats).
    vm_compute. left. reflexivity.
Defined.



(** * Further properties of the code *)

(** ** The grading rule *)

Lemma str_or_nonempty (s : option string) (d : string) : d <> "" -> JS.str_or s d <> "".
Proof. intros Hd. destruct s as [[|c t]|]; cbn; [exact Hd|discriminate|exact Hd]. Qed.

Lemma str_or_entry (s d t : string) : t <> "" -> JS.str_or (Some t) d = t.
Proof. intros Ht. destruct t; [now elim Ht|reflexivity]. Qed.



(** The grade value lies between 1 and 9 and the grade is the band that
    carries this value: A1 for 1, B2 for 2, ..., F9 for 9. *)
Theorem getGradeFromZScore_grade_of_value (score : Q) (mean stdDev : JS.num)
    (remarksMap : gmap string string) :
  let g := getGradeFromZScore score mean stdDev remarksMap in
  1 <= gr_value g <= 9 /\ gr_grade g = bandOfValue (gr_value g).
Proof.
  unfold getGradeFromZScore.
  destruct (JS.eqb stdDev (JS.fin 0));
    [|repeat match goal with
             | |- context [if JS.ge ?a ?b then _ else _] => destruct (JS.ge a b)
             end];
    cbn; (split; [lia|reflexivity]).
Qed.


Lemma Qeq_bool_comp (a b c d : Q) :
  (a == c)%Q -> (b == d)%Q -> Qeq_bool a b = Qeq_bool c d.
Proof.
  intros E1 E2. apply eq_true_iff_eq. rewrite !Qeq_bool_iff. now rewrite E1, E2.
Qed.







(** For a positive standard deviation, a score at or above the mean is
    graded C4 or better and a score below the mean C5 or worse. *)
Theorem getGradeFromZScore_mean_split (score mean stdDev : Q)
    (remarksMap : gmap string string) :
  (0 < stdDev)%Q ->
  (gr_value (getGradeFromZScore score (JS.fin mean) (JS.fin stdDev) remarksMap) <= 4
   <-> (mean <= score)%Q).
Proof.
  intros Hsd. unfold getGradeFromZScore.
  cbn [JS.eqb JS.ge JS.mul JS.sub JS.fin].
  destruct (Qeq_bool stdDev 0) eqn:E0.
  { apply Qeq_bool_iff in E0. lra. }
  repeat match goal with
         | |- context [if Qle_bool ?a ?b then _ else _] =>
             let E := fresh "E" in
             destruct (Qle_bool a b) eqn:E;
             [apply Qle_bool_iff in E | apply not_true_iff_false in E; rewrite Qle_bool_iff in E]
         end; cbn [gr_value]; (split; [intros H; try lia; lra | intros H; try lia; exfalso; lra]).
Qed.

Lemma getGradeFromZScore_mean_split_witness :
  gr_value (getGradeFromZScore 70 (JS.fin 70) (JS.fin 10) ∅) <= 4.
Proof.
  apply (getGradeFromZScore_mean_split 70 70 10 ∅); [reflexivity|].
  unfold Qle. cbn. lia.
Defined.

(** ** The daycare bands and the subject remark *)

(** The daycare band is G from 70 up, S from 40 up to 70 and B below 40; the
    band B goes with the subject remark of a critical failure, and only with
    it. *)
Theorem getDaycareGrade_bands (score : Q) :
  (DaycareGrade.grade (getDaycareGrade score) = "G" <-> (70 <= score)%Q) /\
  (DaycareGrade.grade (getDaycareGrade score) = "S" <-> (40 <= score /\ score < 70)%Q) /\
  (DaycareGrade.grade (getDaycareGrade score) = "B" <-> (score < 40)%Q) /\
  (DaycareGrade.grade (getDaycareGrade score) = "B" <->
   generateSubjectRemark score = "Critical Failure. Immediate intervention required.").
Proof.
  unfold getDaycareGrade, generateSubjectRemark.
  repeat match goal with
         | |- context [if Qle_bool ?a ?b then _ else _] =>
             let E := fresh "E" in
             destruct (Qle_bool a b) eqn:E;
             [apply Qle_bool_iff in E | apply not_true_iff_false in E; rewrite Qle_bool_iff in E]
         end; cbn [DaycareGrade.grade];
    try (exfalso; lra);
    repeat split; intros; try discriminate; try reflexivity; try lra.
Qed.

(** ** The mean *)




(** ** The record of a student *)

Section RecordFacts.
Variable CORE_SUBJECTS : list string.
Variable stats : ClassStatistics.t.
Variables facilitatorMap gradingRemarks : gmap string string.
Variable staffList : list StaffMember.t.
Variable scienceBaseScore : Q.

Local Abbreviation compute student :=
  (computeSubject stats facilitatorMap gradingRemarks staffList scienceBaseScore student).
Local Abbreviation process subjectList :=
  (processStudent CORE_SUBJECTS stats facilitatorMap subjectList gradingRemarks
     staffList scienceBaseScore).
Local Abbreviation run students subjectList :=
  (processStudentData CORE_SUBJECTS stats students facilitatorMap subjectList
     gradingRemarks staffList scienceBaseScore).

Lemma subjectStep_fold_total (student : StudentData.t) (subjectList : list string)
    (acc : Q * list ComputedSubject.t) :
  fst (fold_left (subjectStep stats facilitatorMap gradingRemarks staffList
                    scienceBaseScore student) subjectList acc)
  = fold_left Qplus (map ComputedSubject.score (map (compute student) subjectList))
                    (fst acc).
Proof.
  revert acc. induction subjectList as [|s r IH]; intros acc; cbn [fold_left map];
    [reflexivity|].
  rewrite IH. reflexivity.
Qed.

(** Every record of the output has one computed subject per subject of the
    list, in list order, each with the score of the normalization rule and
    the grade of the statistics of its subject; the total score is the sum of
    these scores. *)
Theorem processStudentData_subjects (students : list StudentData.t)
    (subjectList : list string) (p : ProcessedStudent.t) :
  In p (run students subjectList) ->
  map ComputedSubject.subject (ProcessedStudent.subjects p) = subjectList /\
  ProcessedStudent.totalScore p
  = fold_left Qplus (map ComputedSubject.score (ProcessedStudent.subjects p)) 0%Q /\
  exists student, In student students /\
    ProcessedStudent.id p = StudentData.id student /\
    Forall (fun c =>
              ComputedSubject.score c
              = studentScore scienceBaseScore (ComputedSubject.subject c) student /\
              ComputedSubject.gradeValue c
              = gr_value (getGradeFromZScore (ComputedSubject.score c)
                            (ClassStatistics.subjectMeans stats !! ComputedSubject.subject c)
                            (ClassStatistics.subjectStdDevs stats !! ComputedSubject.subject c)
                            gradingRemarks))
           (ProcessedStudent.subjects p).
Proof.
  intros Hp. apply processStudentData_from_student in Hp.
  destruct Hp as (student & Hs & ->).
  cbn [ProcessedStudent.set_rank ProcessedStudent.subjects ProcessedStudent.totalScore
       ProcessedStudent.id].
  rewrite processStudent_subjects. split; [|split].
  - rewrite map_map. cbn [computeSubject ComputedSubject.subject]. apply map_id.
  - cbn [processStudent ProcessedStudent.totalScore]. apply subjectStep_fold_total.
  - exists student. split; [exact Hs|]. split; [reflexivity|].
    apply Forall_forall. intros c Hc. apply list_elem_of_In, in_map_iff in Hc.
    destruct Hc as (subject & <- & _). split; reflexivity.
Qed.

(** *** The best six *)

Lemma firstn_skipn_sorted {A : Type} (R : A -> A -> Prop) (n : nat) (l : list A)
    (a b : A) :
  StronglySorted R l -> In a (firstn n l) -> In b (skipn n l) -> R a b.
Proof.
  intros Hs Ha Hb. rewrite <- (firstn_skipn n l) in Hs.
  destruct (proj1 (StronglySorted_app R _ _) Hs) as (H & _ & _).
  apply H; now apply list_elem_of_In.
Qed.

Lemma firstn_In {A : Type} (n : nat) (l : list A) (a : A) :
  In a (firstn n l) -> In a l.
Proof.
  intros H. rewrite <- (firstn_skipn n l). apply in_or_app. now left.
Qed.

Lemma sumGradeValues_bounds (l : list ComputedSubject.t) :
  Forall (fun c => 1 <= ComputedSubject.gradeValue c <= 9) l ->
  Z.of_nat (length l) <= sumGradeValues l <= 9 * Z.of_nat (length l).
Proof.
  unfold sumGradeValues. rewrite sumGradeValues_fold.
  assert (G : forall z, Forall (fun c => 1 <= ComputedSubject.gradeValue c <= 9) l ->
            z + Z.of_nat (length l)
            <= fold_left Z.add (map ComputedSubject.gradeValue l) z
            <= z + 9 * Z.of_nat (length l)).
  { induction l as [|c r IH]; intros z H; [cbn; lia|].
    inversion H as [|? ? Hc Hr]; subst. cbn [map fold_left length].
    specialize (IH (z + ComputedSubject.gradeValue c) Hr). lia. }
  intros H. specialize (G 0 H). lia.
Qed.

(** One partition of the subjects, sorted and cut to its best [n]: the
    selection has [n] subjects, or all of the partition when it is smaller;
    its subjects belong to the partition; and every subject of the partition
    left out comes after every selected one in the order of [sortFn], so it
    has no better grade value, nor the same grade value with a higher
    score. *)
Lemma best_slice (keep : ComputedSubject.t -> bool) (n : nat)
    (computedSubjects : list ComputedSubject.t) :
  let best := JS.slice0 n (JS.sort sortFn (List.filter keep computedSubjects)) in
  length best = Nat.min n (length (List.filter keep computedSubjects)) /\
  (forall a, In a best -> In a computedSubjects /\ keep a = true) /\
  (forall a b, In a best -> In b computedSubjects -> keep b = true -> ~ In b best ->
     ComputedSubject.gradeValue a < ComputedSubject.gradeValue b \/
     (ComputedSubject.gradeValue a = ComputedSubject.gradeValue b /\
      (ComputedSubject.score b <= ComputedSubject.score a)%Q)).
Proof.
  intros best. subst best. unfold JS.slice0.
  set (part := List.filter keep computedSubjects).
  split; [|split].
  - rewrite length_firstn, sort_length. reflexivity.
  - intros a Ha. apply firstn_In in Ha.
    apply (Permutation_in _ (sort_perm sortFn part)) in Ha.
    now apply filter_In in Ha.
  - intros a b Ha Hb Hk Hn. apply before_sortFn.
    apply (firstn_skipn_sorted (fun x y => JS.before sortFn x y = true) n
             (JS.sort sortFn part)).
    + apply sort_StronglySorted; [apply sortFn_total|apply sortFn_trans].
    + exact Ha.
    + assert (Hin : In b (JS.sort sortFn part)).
      { apply (Permutation_in _ (Permutation_sym (sort_perm sortFn part))).
        apply filter_In. now split. }
      rewrite <- (firstn_skipn n (JS.sort sortFn part)) in Hin.
      apply in_app_or in Hin. destruct Hin as [Hin|Hin]; [contradiction|exact Hin].
Qed.

Lemma processStudent_best (student : StudentData.t) (subjectList : list string) (r : Z) :
  let p := ProcessedStudent.set_rank (process subjectList student) r in
  ProcessedStudent.bestCoreSubjects p
  = best4Cores CORE_SUBJECTS (ProcessedStudent.subjects p) /\
  ProcessedStudent.bestElectiveSubjects p
  = best2Electives CORE_SUBJECTS (ProcessedStudent.subjects p) /\
  ProcessedStudent.bestSixAggregate p
  = sumGradeValues (ProcessedStudent.bestCoreSubjects p)
    + sumGradeValues (ProcessedStudent.bestElectiveSubjects p).
Proof. cbn. repeat split; reflexivity. Qed.

Lemma run_grades (students : list StudentData.t) (subjectList : list string)
    (p : ProcessedStudent.t) :
  In p (run students subjectList) ->
  Forall pipelineGrade (ProcessedStudent.subjects p).
Proof.
  intros Hp.
  pose proof (processStudentData_grades CORE_SUBJECTS stats students facilitatorMap
                subjectList gradingRemarks staffList scienceBaseScore) as H.
  rewrite Forall_forall in H. apply H. now apply list_elem_of_In.
Qed.

(** The selection behind the aggregate of every record of the output: the
    best core subjects are 4 core subjects of the record, or all its core
    subjects when it has fewer; the best electives are 2 of the other
    subjects, or all of them; the aggregate is the sum of the grade values of
    the selected subjects, hence between their number and 9 times their
    number. *)
Theorem bestSix_selection (students : list StudentData.t)
    (subjectList : list string) (p : ProcessedStudent.t) :
  In p (run students subjectList) ->
  let cores := ProcessedStudent.bestCoreSubjects p in
  let electives := ProcessedStudent.bestElectiveSubjects p in
  let selected := Z.of_nat (length cores + length electives) in
  length cores
  = Nat.min 4 (length (List.filter (isCore CORE_SUBJECTS) (ProcessedStudent.subjects p))) /\
  length electives
  = Nat.min 2 (length (List.filter (fun s => negb (isCore CORE_SUBJECTS s))
                         (ProcessedStudent.subjects p))) /\
  (forall a, In a cores ->
     In a (ProcessedStudent.subjects p) /\ isCore CORE_SUBJECTS a = true) /\
  (forall a, In a electives ->
     In a (ProcessedStudent.subjects p) /\ isCore CORE_SUBJECTS a = false) /\
  ProcessedStudent.bestSixAggregate p
  = sumGradeValues cores + sumGradeValues electives /\
  selected <= ProcessedStudent.bestSixAggregate p <= 9 * selected.
Proof.
  intros Hp cores electives selected.
  pose proof (run_grades students subjectList p Hp) as Hg.
  apply processStudentData_from_student in Hp. destruct Hp as (student & _ & E).
  destruct (processStudent_best student subjectList (ProcessedStudent.rank p))
    as (Ec & Ee & Ea).
  cbv zeta in Ec, Ee, Ea. rewrite <- E in Ec, Ee, Ea.
  subst cores electives selected. rewrite Ea.
  destruct (best_slice (isCore CORE_SUBJECTS) 4 (ProcessedStudent.subjects p))
    as (C1 & C2 & _).
  destruct (best_slice (fun s => negb (isCore CORE_SUBJECTS s)) 2
              (ProcessedStudent.subjects p)) as (E1 & E2 & _).
  cbv zeta in C1, C2, E1, E2.
  fold (best4Cores CORE_SUBJECTS (ProcessedStudent.subjects p)) in C1, C2.
  fold (best2Electives CORE_SUBJECTS (ProcessedStudent.subjects p)) in E1, E2.
  rewrite <- Ec in C1, C2. rewrite <- Ee in E1, E2.
  split; [exact C1|]. split; [exact E1|]. split; [exact C2|].
  split; [intros a Ha; destruct (E2 a Ha) as [I N]; split;
          [exact I|now apply negb_true_iff in N]|].
  split; [reflexivity|].
  assert (Bc : Forall (fun c => 1 <= ComputedSubject.gradeValue c <= 9)
                 (ProcessedStudent.bestCoreSubjects p)).
  { apply Forall_forall. intros c Hc. apply list_elem_of_In in Hc.
    destruct (C2 c Hc) as [Hin _]. rewrite Forall_forall in Hg.
    apply list_elem_of_In in Hin. now destruct (Hg c Hin). }
  assert (Be : Forall (fun c => 1 <= ComputedSubject.gradeValue c <= 9)
                 (ProcessedStudent.bestElectiveSubjects p)).
  { apply Forall_forall. intros c Hc. apply list_elem_of_In in Hc.
    destruct (E2 c Hc) as [Hin _]. rewrite Forall_forall in Hg.
    apply list_elem_of_In in Hin. now destruct (Hg c Hin). }
  apply sumGradeValues_bounds in Bc, Be. lia.
Qed.

(** The selection is the best one: a core subject of the record that is not
    among the best core subjects has no better grade value than any selected
    one, and with the same grade value no higher score; likewise for the
    electives. *)
Theorem bestSix_optimal (students : list StudentData.t)
    (subjectList : list string) (p : ProcessedStudent.t) :
  In p (run students subjectList) ->
  (forall a b,
     In a (ProcessedStudent.bestCoreSubjects p) ->
     In b (ProcessedStudent.subjects p) -> isCore CORE_SUBJECTS b = true ->
     ~ In b (ProcessedStudent.bestCoreSubjects p) ->
     ComputedSubject.gradeValue a < ComputedSubject.gradeValue b \/
     (ComputedSubject.gradeValue a = ComputedSubject.gradeValue b /\
      (ComputedSubject.score b <= ComputedSubject.score a)%Q)) /\
  (forall a b,
     In a (ProcessedStudent.bestElectiveSubjects p) ->
     In b (ProcessedStudent.subjects p) -> isCore CORE_SUBJECTS b = false ->
     ~ In b (ProcessedStudent.bestElectiveSubjects p) ->
     ComputedSubject.gradeValue a < ComputedSubject.gradeValue b \/
     (ComputedSubject.gradeValue a = ComputedSubject.gradeValue b /\
      (ComputedSubject.score b <= ComputedSubject.score a)%Q)).
Proof.
  intros Hp.
  apply processStudentData_from_student in Hp. destruct Hp as (student & _ & E).
  destruct (processStudent_best student subjectList (ProcessedStudent.rank p))
    as (Ec & Ee & _).
  cbv zeta in Ec, Ee. rewrite <- E in Ec, Ee.
  destruct (best_slice (isCore CORE_SUBJECTS) 4 (ProcessedStudent.subjects p))
    as (_ & _ & C3).
  destruct (best_slice (fun s => negb (isCore CORE_SUBJECTS s)) 2
              (ProcessedStudent.subjects p)) as (_ & _ & E3).
  cbv zeta in C3, E3.
  fold (best4Cores CORE_SUBJECTS (ProcessedStudent.subjects p)) in C3.
  fold (best2Electives CORE_SUBJECTS (ProcessedStudent.subjects p)) in E3.
  rewrite <- Ec in C3. rewrite <- Ee in E3.
  split; [exact C3|].
  intros a b Ha Hb Hk Hn. apply (E3 a b Ha Hb); [now rewrite Hk|exact Hn].
Qed.

(** *** Ranks *)

Lemma run_lookup (students : list StudentData.t) (subjectList : list string)
    (i : nat) (a : ProcessedStudent.t) :
  run students subjectList !! i = Some a ->
  ProcessedStudent.rank a = Z.of_nat i + 1 /\
  exists a0, JS.sort rankFn (map (process subjectList) students) !! i = Some a0 /\
    ProcessedStudent.bestSixAggregate a = ProcessedStudent.bestSixAggregate a0 /\
    ProcessedStudent.totalScore a = ProcessedStudent.totalScore a0.
Proof.
  unfold processStudentData. rewrite assignRanks_lookup.
  destruct (JS.sort rankFn _ !! i) as [a0|]; [|discriminate].
  cbn. intros [= <-]. cbn. split; [lia|]. exists a0. repeat split.
Qed.

(** In the output a smaller rank never goes with a larger aggregate, nor,
    among equal aggregates, with a smaller total score; and no two positions
    of the output share a rank. *)
Theorem rank_respects_order (students : list StudentData.t)
    (subjectList : list string) (i j : nat) (a b : ProcessedStudent.t) :
  run students subjectList !! i = Some a ->
  run students subjectList !! j = Some b ->
  (ProcessedStudent.rank a = ProcessedStudent.rank b -> i = j) /\
  (ProcessedStudent.rank a < ProcessedStudent.rank b ->
   ProcessedStudent.bestSixAggregate a < ProcessedStudent.bestSixAggregate b \/
   (ProcessedStudent.bestSixAggregate a = ProcessedStudent.bestSixAggregate b /\
    (ProcessedStudent.totalScore b <= ProcessedStudent.totalScore a)%Q)).
Proof.
  intros Ha Hb.
  destruct (run_lookup students subjectList i a Ha) as (Ra & a0 & La & Aa & Ta).
  destruct (run_lookup students subjectList j b Hb) as (Rb & b0 & Lb & Ab & Tb).
  split; [lia|]. intros Hr. rewrite Aa, Ab, Ta, Tb. apply before_rankFn.
  apply (StronglySorted_lookup _ _
           (sort_StronglySorted rankFn rankFn_total rankFn_trans
              (map (process subjectList) students)) i j);
    [lia|assumption..].
Qed.

(** *** Defaults *)

(** The recommendation and the attendance of a record of the output are
    never empty: the recommendation is the student's when that is a
    non-empty text and the fixed advice otherwise. *)
Theorem recommendation_attendance_defaults (students : list StudentData.t)
    (subjectList : list string) (p : ProcessedStudent.t) :
  In p (run students subjectList) ->
  ProcessedStudent.recommendation p <> "" /\
  ProcessedStudent.attendance p <> "" /\
  exists student, In student students /\
    ProcessedStudent.id p = StudentData.id student /\
    (forall t, StudentData.recommendation student = Some t -> t <> "" ->
               ProcessedStudent.recommendation p = t) /\
    ((StudentData.recommendation student = None \/
      StudentData.recommendation student = Some "") ->
     ProcessedStudent.recommendation p = defaultRecommendation).
Proof.
  intros Hp. apply processStudentData_from_student in Hp.
  destruct Hp as (student & Hs & ->).
  cbn [ProcessedStudent.set_rank ProcessedStudent.recommendation
       ProcessedStudent.attendance ProcessedStudent.id processStudent].
  split; [apply str_or_nonempty; discriminate|].
  split; [apply str_or_nonempty; discriminate|].
  exists student. split; [exact Hs|]. split; [reflexivity|]. split.
  - intros t -> Ht. now apply str_or_entry.
  - intros [->| ->]; reflexivity.
Qed.

(** *** The synthesized remark *)

Lemma noText_synthesized (student : StudentData.t)
    (computedSubjects : list ComputedSubject.t) (aggregate : Z) (category : string) :
  (forall t, StudentData.finalRemark student = Some t -> JS.trim t = "") ->
  assembleRemarks student computedSubjects aggregate category
  = synthesizedRemarks student computedSubjects aggregate category.
Proof.
  intros H. unfold assembleRemarks.
  destruct (StudentData.finalRemark student) as [t|]; [|reflexivity].
  unfold hasText. rewrite (H t eq_refl). cbn. now rewrite andb_false_r.
Qed.


Lemma string_app_assoc (a b c : string) : (a ++ b) ++ c = a ++ (b ++ c).
Proof.
  induction a as [|x a IH]; [reflexivity|].
  change (String x ((a ++ b) ++ c) = String x (a ++ (b ++ c))). now rewrite IH.
Qed.

(** Without a final remark and without a remark of the class teacher, the
    overall remark ends with the generated summary, whose tone follows the
    category: Distinction is always encouraged, Pass and Fail are always
    asked for more effort. *)
Theorem generated_summary_tone (students : list StudentData.t)
    (subjectList : list string) (student : StudentData.t) :
  In student students ->
  (forall t, StudentData.finalRemark student = Some t -> JS.trim t = "") ->
  (StudentData.overallRemark student = None \/
   StudentData.overallRemark student = Some "") ->
  exists p before, In p (run students subjectList) /\
    ProcessedStudent.id p = StudentData.id student /\
    (ProcessedStudent.category p = "Distinction" ->
     ProcessedStudent.overallRemark p
     = before ++ "Overall performance is Distinction. Keep up the excellent work!") /\
    (ProcessedStudent.category p = "Pass" ->
     ProcessedStudent.overallRemark p
     = before ++ "Overall performance is Pass. More effort required to improve aggregate.") /\
    (ProcessedStudent.category p = "Fail" ->
     ProcessedStudent.overallRemark p
     = before ++ "Overall performance is Fail. More effort required to improve aggregate.").
Proof.
  intros Hs Hf Ho.
  destruct (processStudentData_of_student CORE_SUBJECTS stats facilitatorMap
              gradingRemarks staffList scienceBaseScore students subjectList student Hs)
    as [r Hr].
  eexists.
  exists (ProcessedStudent.weaknessAnalysis (process subjectList student)
          ++ (if (0 <? length (facilitatorRemarks student))%nat
              then " [Facilitator Notes: " ++ JS.join "; " (facilitatorRemarks student) ++ "]"
              else "")
          ++ newline ++ newline).
  split; [exact Hr|].
  cbn [ProcessedStudent.set_rank ProcessedStudent.id ProcessedStudent.overallRemark
       ProcessedStudent.weaknessAnalysis ProcessedStudent.category processStudent].
  rewrite noText_synthesized by exact Hf.
  unfold synthesizedRemarks. cbn [fst snd].
  set (cs := snd (fold_left _ subjectList (0%Q, []))).
  assert (Et : forall g, JS.str_or (StudentData.overallRemark student) g = g)
    by (intros g; destruct Ho as [-> | ->]; reflexivity).
  rewrite Et. split; [reflexivity|].
  destruct (categoryOf_cases (bestSix CORE_SUBJECTS cs)) as (_ & [[L E]|[[L E]|[[L E]|[L E]]]]);
    rewrite E; (split; [|split]); intros H; try discriminate H.
  - destruct (Z.leb_spec (bestSix CORE_SUBJECTS cs) 15); [|lia].
    rewrite !string_app_assoc. reflexivity.
  - destruct (Z.leb_spec (bestSix CORE_SUBJECTS cs) 15); [lia|].
    rewrite !string_app_assoc. reflexivity.
  - destruct (Z.leb_spec (bestSix CORE_SUBJECTS cs) 15); [lia|].
    rewrite !string_app_assoc. reflexivity.
Qed.

End RecordFacts.

(** Instances on the small cohort and on the student with five core
    subjects. *)
Lemma processStudentData_subjects_witness :
  map ComputedSubject.subject (ProcessedStudent.subjects amaRecord) = demoSubjects.
Proof.
  apply (processStudentData_subjects demoCore demoStats ∅ ∅ [] 100%Q demoStudents
           demoSubjects amaRecord).
  vm_compute. left. reflexivity.
Defined.

Lemma bestSix_selection_witness :
  length (ProcessedStudent.bestCoreSubjects yawRecord)
  = Nat.min 4 (length (List.filter (isCore wideCore) (ProcessedStudent.subjects yawRecord))).
Proof.
  apply (bestSix_selection wideCore wideStats ∅ ∅ [] 100%Q [yaw] wideCore yawRecord).
  vm_compute. left. reflexivity.
Defined.

Lemma bestSix_optimal_witness :
  ComputedSubject.gradeValue (yawSubject "Mathematics")
  < ComputedSubject.gradeValue (yawSubject "Computing") \/
  (ComputedSubject.gradeValue (yawSubject "Mathematics")
   = ComputedSubject.gradeValue (yawSubject "Computing") /\
   (ComputedSubject.score (yawSubject "Computing")
    <= ComputedSubject.score (yawSubject "Mathematics"))%Q).
Proof.
  apply (proj1 (bestSix_optimal wideCore wideStats ∅ ∅ [] 100%Q [yaw] wideCore yawRecord
                  (or_introl eq_refl))).
  - vm_compute. left. reflexivity.
  - vm_compute. do 4 right. left. reflexivity.
  - reflexivity.
  - vm_compute. intuition discriminate.
Defined.

Lemma rank_respects_order_witness :
  ProcessedStudent.bestSixAggregate amaRecord < ProcessedStudent.bestSixAggregate kofiRecord \/
  (ProcessedStudent.bestSixAggregate amaRecord = ProcessedStudent.bestSixAggregate kofiRecord /\
   (ProcessedStudent.totalScore kofiRecord <= ProcessedStudent.totalScore amaRecord)%Q).
Proof.
  destruct (rank_respects_order demoCore demoStats ∅ ∅ [] 100%Q demoStudents
              demoSubjects 0%nat 1%nat amaRecord kofiRecord) as [_ H].
  - vm_compute. reflexivity.
  - vm_compute. reflexivity.
  - apply H. vm_compute. reflexivity.
Defined.

Lemma recommendation_attendance_defaults_witness :
  ProcessedStudent.recommendation amaRecord <> "" /\
  ProcessedStudent.attendance amaRecord <> "".
Proof.
  destruct (recommendation_attendance_defaults demoCore demoStats ∅ ∅ [] 100%Q
              demoStudents demoSubjects amaRecord) as (H1 & H2 & _).
  - vm_compute. left. reflexivity.
  - split; [exact H1|exact H2].
Defined.


Lemma generated_summary_tone_witness :
  exists p before, In p abenaRun /\
    ProcessedStudent.overallRemark p
    = before ++ "Overall performance is Distinction. Keep up the excellent work!".
Proof.
  destruct (generated_summary_tone demoCore demoStats ∅ ∅ [] 100%Q [abena]
              demoSubjects abena) as (p & before & Hp & _ & HD & _).
  - left. reflexivity.
  - intros t H. discriminate H.
  - left. reflexivity.
  - exists p, before. split; [exact Hp|]. apply HD.
    destruct Hp as [<-|[]]. vm_compute. reflexivity.
Defined.

(** ** The lowest-scoring subject *)

Lemma before_scoreAsc (a b : ComputedSubject.t) :
  JS.before scoreAsc a b = true <-> (ComputedSubject.score a <= ComputedSubject.score b)%Q.
Proof. unfold JS.before, scoreAsc. rewrite Qle_bool_iff. apply Qminus_nonpos. Qed.

Lemma scoreAsc_total (a b : ComputedSubject.t) :
  JS.before scoreAsc a b = true \/ JS.before scoreAsc b a = true.
Proof.
  rewrite !before_scoreAsc.
  destruct (Qlt_le_dec (ComputedSubject.score a) (ComputedSubject.score b)) as [L|L];
    [left; now apply Qlt_le_weak|right; exact L].
Qed.

Lemma scoreAsc_trans (a b c : ComputedSubject.t) :
  JS.before scoreAsc a b = true -> JS.before scoreAsc b c = true ->
  JS.before scoreAsc a c = true.
Proof. rewrite !before_scoreAsc. apply Qle_trans. Qed.

(** The subject named as the lowest performance of a non-empty list of
    computed subjects has the lowest score of the list, and is the first in
    list order of those that share this score; "N/A" stands in for an empty
    subject name. *)
Theorem lowestSubject_lowest (computedSubjects : list ComputedSubject.t) :
  computedSubjects <> [] ->
  exists c, In c computedSubjects /\
    (forall c', In c' computedSubjects ->
       (ComputedSubject.score c <= ComputedSubject.score c')%Q) /\
    hd_error (List.filter (fun x => Qeq_bool (ComputedSubject.score x)
                                      (ComputedSubject.score c)) computedSubjects)
    = Some c /\
    lowestSubject computedSubjects
    = (if String.eqb (ComputedSubject.subject c) "" then "N/A"
       else ComputedSubject.subject c).
Proof.
  intros Hne. unfold lowestSubject. fold scoreAsc.
  pose proof (sort_perm scoreAsc computedSubjects) as Hperm.
  pose proof (sort_StronglySorted scoreAsc scoreAsc_total scoreAsc_trans computedSubjects)
    as Hsorted.
  destruct (JS.sort scoreAsc computedSubjects) as [|c rest] eqn:E.
  { apply Permutation_nil in Hperm. contradiction. }
  exists c. split; [|split; [|split]].
  - apply (Permutation_in _ Hperm). now left.
  - intros c' Hc'. apply (Permutation_in _ (Permutation_sym Hperm)) in Hc'.
    destruct Hc' as [<-|Hc']; [apply Qle_refl|].
    inversion Hsorted as [|? ? _ Hall]; subst. rewrite Forall_forall in Hall.
    apply before_scoreAsc, Hall. now apply list_elem_of_In.
  - rewrite <- (sort_stable scoreAsc
                  (fun x => Qeq_bool (ComputedSubject.score x) (ComputedSubject.score c))).
    + rewrite E. cbn [List.filter].
      rewrite (proj2 (Qeq_bool_iff _ _) (Qeq_refl _)). reflexivity.
    + intros a b Ha Hb. apply Qeq_bool_iff in Ha, Hb. apply before_scoreAsc.
      rewrite Ha, Hb. apply Qle_refl.
  - cbn [head option_map JS.str_or].
    destruct (ComputedSubject.subject c); reflexivity.
Qed.

Lemma lowestSubject_lowest_witness :
  exists c, In c (ProcessedStudent.subjects esiRecord) /\
    (forall c', In c' (ProcessedStudent.subjects esiRecord) ->
       (ComputedSubject.score c <= ComputedSubject.score c')%Q).
Proof.
  destruct (lowestSubject_lowest (ProcessedStudent.subjects esiRecord))
    as (c & Hc & Hmin & _).
  - vm_compute. discriminate.
  - exists c. split; [exact Hc|exact Hmin].
Defined.

(** ** The facilitator of a subject *)

Lemma find_first {A : Type} (f : A -> bool) (l1 l2 : list A) (x : A) :
  Forall (fun y => f y = false) l1 -> f x = true ->
  List.find f (l1 ++ x :: l2) = Some x.
Proof.
  induction 1 as [|y r Hy Hr IH]; intros Hx; cbn.
  - now rewrite Hx.
  - rewrite Hy. now apply IH.
Qed.

Lemma find_none_all {A : Type} (f : A -> bool) (l : list A) :
  Forall (fun y => f y = false) l -> List.find f l = None.
Proof. induction 1 as [|y r Hy Hr IH]; cbn; [reflexivity|]. now rewrite Hy. Qed.

(** The facilitator of a subject is the first member of the staff roster, in
    roster order, whose subject list includes the subject; the facilitator
    map is consulted only when no member teaches the subject, and then an
    absent or empty entry gives "TBA", so that the result is not empty. *)
Theorem facilitatorOf_priority (staffList : list StaffMember.t)
    (facilitatorMap : gmap string string) (subject : string) :
  (forall earlier staff later,
     staffList = (earlier ++ staff :: later)%list ->
     Forall (fun s => teaches subject s = false) earlier ->
     teaches subject staff = true ->
     facilitatorOf staffList facilitatorMap subject = StaffMember.name staff) /\
  (Forall (fun s => teaches subject s = false) staffList ->
   facilitatorOf staffList facilitatorMap subject <> "" /\
   (forall t, facilitatorMap !! subject = Some t -> t <> "" ->
              facilitatorOf staffList facilitatorMap subject = t) /\
   ((facilitatorMap !! subject = None \/ facilitatorMap !! subject = Some "") ->
    facilitatorOf staffList facilitatorMap subject = "TBA")) /\
  (forall s, teaches subject s = true <->
             exists l, StaffMember.subjects s = Some l /\ In subject l).
Proof.
  unfold facilitatorOf. split; [|split].
  - intros earlier staff later -> He Hs. now rewrite (find_first _ _ _ _ He Hs).
  - intros Hall. rewrite (find_none_all _ _ Hall).
    split; [apply str_or_nonempty; discriminate|]. split.
    + intros t -> Ht. now apply str_or_entry.
    + intros [-> | ->]; reflexivity.
  - intros s. unfold teaches. destruct (StaffMember.subjects s) as [l|].
    + rewrite existsb_exists. split.
      * intros (x & Hx & E). apply String.eqb_eq in E. subst x. eauto.
      * intros (l' & [= <-] & Hin). exists subject. split; [exact Hin|apply String.eqb_refl].
    + split; [discriminate|]. intros (l & H & _). discriminate H.
Qed.

Lemma facilitatorOf_priority_witness :
  facilitatorOf [StaffMember.mk "Mr. Mensah" None;
                 StaffMember.mk "Mrs. Owusu" (Some ["Science"; "Computing"]);
                 StaffMember.mk "Mr. Addo" (Some ["Science"])]
                {[ "Science" := "Ms. Boateng" ]} "Science"
  = "Mrs. Owusu".
Proof.
  apply (proj1 (facilitatorOf_priority _ {[ "Science" := "Ms. Boateng" ]} "Science")
           [StaffMember.mk "Mr. Mensah" None]
           (StaffMember.mk "Mrs. Owusu" (Some ["Science"; "Computing"]))
           [StaffMember.mk "Mr. Addo" (Some ["Science"])]).
  - reflexivity.
  - repeat constructor.
  - reflexivity.
Defined.

(** ** The tallies of the facilitator statistics *)

Lemma collectStats_allSubjects (processedStudents : list ProcessedStudent.t) :
  collectStats processedStudents = fold_left statsStep (allSubjects processedStudents) [].
Proof.
  unfold collectStats, allSubjects. generalize (@nil (string * FacilitatorStats.t)).
  induction processedStudents as [|p r IH]; intros m; cbn [fold_left map concat];
    [reflexivity|].
  rewrite fold_left_app. apply IH.
Qed.

Lemma hasKey_In (key : string) (m : list (string * FacilitatorStats.t)) :
  hasKey key m = true <-> In key (map fst m).
Proof.
  induction m as [|[k e] r IH]; cbn; [split; [discriminate|tauto]|].
  rewrite orb_true_iff, IH, String.eqb_eq. tauto.
Qed.

Lemma alterKey_keys (key : string) (f : FacilitatorStats.t -> FacilitatorStats.t)
    (m : list (string * FacilitatorStats.t)) :
  map fst (alterKey key f m) = map fst m.
Proof.
  induction m as [|[k e] r IH]; cbn; [reflexivity|].
  destruct (String.eqb k key); cbn; [reflexivity|now rewrite IH].
Qed.

Lemma alterKey_In (key : string) (f : FacilitatorStats.t -> FacilitatorStats.t)
    (m : list (string * FacilitatorStats.t)) (k : string) (e' : FacilitatorStats.t) :
  List.NoDup (map fst m) ->
  In (k, e') (alterKey key f m) ->
  (k <> key /\ In (k, e') m) \/ (k = key /\ exists e, In (k, e) m /\ e' = f e).
Proof.
  induction m as [|[k0 e0] r IH]; cbn; [tauto|]. intros Hnd.
  inversion Hnd as [|? ? Hnot Hr]; subst.
  destruct (String.eqb_spec k0 key) as [->|Hne]; cbn.
  - intros [[= <- <-]|Hin].
    + right. split; [reflexivity|]. exists e0. split; [now left|reflexivity].
    + left. split; [|now right].
      intros ->. apply Hnot. apply in_map_iff. exists (key, e'). split; [reflexivity|exact Hin].
  - intros [[= <- <-]|Hin].
    + left. split; [exact Hne|now left].
    + destruct (IH Hr Hin) as [[H1 H2]|[H1 (e & H2 & H3)]].
      * left. split; [exact H1|now right].
      * right. split; [exact H1|]. exists e. split; [now right|exact H3].
Qed.

Lemma sumGradeValues_snoc (l : list ComputedSubject.t) (x : ComputedSubject.t) :
  sumGradeValues (l ++ [x]) = sumGradeValues l + ComputedSubject.gradeValue x.
Proof. unfold sumGradeValues. now rewrite fold_left_app. Qed.

Lemma filter_snoc {A : Type} (f : A -> bool) (l : list A) (x : A) :
  List.filter f (l ++ [x]) = (List.filter f l ++ (if f x then [x] else []))%list.
Proof. rewrite List.filter_app. reflexivity. Qed.

Lemma initialGradeCounts_zero (g : string) : default 0 (initialGradeCounts !! g) = 0.
Proof.
  unfold initialGradeCounts, gradeBands. cbn [map list_to_map foldr fst snd].
  repeat (rewrite lookup_insert; case_decide; [reflexivity|]).
  now rewrite lookup_empty.
Qed.

(** Counting a subject under its own key keeps an entry the tally of the
    subjects with this key; entries under other keys are not concerned. *)
Lemma tallies_other (subs : list ComputedSubject.t) (sub : ComputedSubject.t)
    (k : string) (e : FacilitatorStats.t) :
  k <> statsKey sub -> tallies subs k e -> tallies (subs ++ [sub]) k e.
Proof.
  intros Hk (T1 & T2 & T3 & T4 & T5).
  assert (Ek : keyed k sub = false).
  { unfold keyed. apply String.eqb_neq. congruence. }
  unfold tallies. rewrite !filter_snoc, Ek, app_nil_r.
  split; [exact T1|]. split; [exact T2|]. split; [exact T3|]. split; [exact T4|].
  intros g. rewrite filter_snoc. unfold keyedGrade at 2. rewrite Ek. cbn [andb].
  rewrite app_nil_r. apply T5.
Qed.

Lemma tallies_count (subs : list ComputedSubject.t) (sub : ComputedSubject.t)
    (e : FacilitatorStats.t) :
  tallies subs (statsKey sub) e ->
  tallies (subs ++ [sub]) (statsKey sub) (countSubject sub e).
Proof.
  intros (T1 & (first & F1 & F2 & F3) & T3 & T4 & T5).
  assert (Ek : keyed (statsKey sub) sub = true) by apply String.eqb_refl.
  unfold tallies. rewrite !filter_snoc, Ek.
  split; [exact T1|]. split; [|split; [|split]].
  - exists first. split; [|split; [exact F2|exact F3]].
    destruct (List.filter (keyed (statsKey sub)) subs); [discriminate|exact F1].
  - cbn [countSubject FacilitatorStats.studentCount]. rewrite length_app, T3. cbn. lia.
  - cbn [countSubject FacilitatorStats.totalGradeValue].
    rewrite sumGradeValues_snoc, T4. reflexivity.
  - intros g. cbn [countSubject FacilitatorStats.gradeCounts].
    rewrite filter_snoc. unfold keyedGrade at 2. rewrite Ek. cbn [andb].
    rewrite lookup_insert. case_decide as Hg.
    + subst g. rewrite String.eqb_refl, length_app, Nat2Z.inj_add, <- T5.
      destruct (FacilitatorStats.gradeCounts e !! ComputedSubject.grade sub); cbn; lia.
    + apply String.eqb_neq in Hg. rewrite Hg, app_nil_r. apply T5.
Qed.

Lemma tallies_fresh (subs : list ComputedSubject.t) (sub : ComputedSubject.t) :
  List.filter (keyed (statsKey sub)) subs = [] ->
  tallies (subs ++ [sub]) (statsKey sub) (countSubject sub (freshStats sub)).
Proof.
  intros Hnone.
  assert (Ek : keyed (statsKey sub) sub = true) by apply String.eqb_refl.
  assert (Hg : forall g, List.filter (keyedGrade (statsKey sub) g) subs = []).
  { intros g. unfold keyedGrade. induction subs as [|x r IH]; [reflexivity|].
    cbn [List.filter] in *. destruct (keyed (statsKey sub) x); [discriminate|].
    cbn [andb]. now apply IH. }
  unfold tallies. rewrite !filter_snoc, Ek, Hnone.
  split; [reflexivity|]. split; [|split; [|split]].
  - exists sub. repeat split.
  - reflexivity.
  - reflexivity.
  - intros g. cbn [countSubject freshStats FacilitatorStats.gradeCounts].
    rewrite filter_snoc, Hg. unfold keyedGrade. rewrite Ek. cbn [andb app].
    rewrite lookup_insert. case_decide as E.
    + subst g. rewrite String.eqb_refl, initialGradeCounts_zero. reflexivity.
    + apply String.eqb_neq in E. rewrite E. apply initialGradeCounts_zero.
Qed.

(** The state of [statsMap] after a list of computed subjects: the keys are
    distinct, every subject seen has its key in the map, and every entry is
    the tally of its key. *)
Lemma statsMap_tallies (subs : list ComputedSubject.t) :
  let m := fold_left statsStep subs [] in
  List.NoDup (map fst m) /\
  (forall sub, In sub subs -> In (statsKey sub) (map fst m)) /\
  (forall k e, In (k, e) m -> tallies subs k e).
Proof.
  induction subs as [|sub subs IH] using rev_ind.
  - cbn. split; [constructor|]. split; intros; contradiction.
  - cbv zeta in *. rewrite fold_left_app. cbn [fold_left].
    set (m := fold_left statsStep subs []) in *.
    destruct IH as (Hnd & Hkeys & Htal). unfold statsStep.
    destruct (hasKey (statsKey sub) m) eqn:E.
    + split; [now rewrite alterKey_keys|]. split.
      * intros x Hx. rewrite alterKey_keys. apply in_app_or in Hx.
        destruct Hx as [Hx|[<-|[]]]; [now apply Hkeys|now apply hasKey_In].
      * intros k e Hin. apply (alterKey_In _ _ _ _ _ Hnd) in Hin.
        destruct Hin as [[Hne Hin]|[-> (e0 & Hin & ->)]].
        -- apply tallies_other; [exact Hne|now apply Htal].
        -- apply tallies_count. now apply Htal.
    + assert (Hnot : ~ In (statsKey sub) (map fst m)).
      { intros H. apply hasKey_In in H. congruence. }
      rewrite alterKey_fresh by exact E. rewrite map_app. cbn [map fst].
      split; [|split].
      * apply NoDup_ListNoDup, NoDup_app. split; [now apply NoDup_ListNoDup|]. split.
        -- intros x Hx Hx'. apply list_elem_of_In in Hx.
           apply list_elem_of_In in Hx'. destruct Hx' as [<-|[]]. contradiction.
        -- apply NoDup_singleton.
      * intros x Hx. apply in_or_app. apply in_app_or in Hx.
        destruct Hx as [Hx|[<-|[]]]; [left; now apply Hkeys|right; now left].
      * intros k e Hin. apply in_app_or in Hin. destruct Hin as [Hin|[[= <- <-]|[]]].
        -- apply tallies_other; [|now apply Htal].
           intros ->. apply Hnot. apply in_map_iff. exists (statsKey sub, e). now split.
        -- apply tallies_fresh.
           destruct (List.filter (keyed (statsKey sub)) subs) as [|x r] eqn:F; [reflexivity|].
           exfalso. assert (Hx : In x (List.filter (keyed (statsKey sub)) subs))
             by (rewrite F; now left).
           apply filter_In in Hx. destruct Hx as [Hx Hk]. apply String.eqb_eq in Hk.
           apply Hnot. rewrite <- Hk. now apply Hkeys.
Qed.

Lemma tallies_finish (subs : list ComputedSubject.t) (k : string) (e : FacilitatorStats.t) :
  tallies subs k e -> tallies subs (recordKey (finishStats e)) (finishStats e).
Proof. intros (T1 & T2 & T3 & T4 & T5). subst k. repeat split; assumption. Qed.

(** The records returned by [calculateFacilitatorStats] have distinct keys
    [facilitator||subject]; every computed subject of the input has the
    record of its key; and every record is the tally of the computed subjects
    with its key: it carries the facilitator and subject of the first of
    them, [studentCount] is their number, [totalGradeValue] the sum of their
    grade values and [gradeCounts] counts them grade by grade. *)
Theorem facilitatorStats_tallies (processedStudents : list ProcessedStudent.t) :
  let out := calculateFacilitatorStats processedStudents in
  let subs := allSubjects processedStudents in
  List.NoDup (map recordKey out) /\
  (forall sub, In sub subs -> exists r, In r out /\ recordKey r = statsKey sub) /\
  (forall r, In r out -> tallies subs (recordKey r) r).
Proof.
  intros out subs. subst out subs. unfold calculateFacilitatorStats.
  rewrite collectStats_allSubjects.
  destruct (statsMap_tallies (allSubjects processedStudents)) as (Hnd & Hkeys & Htal).
  cbv zeta in Hnd, Hkeys, Htal.
  set (m := fold_left statsStep (allSubjects processedStudents) []) in *.
  assert (Hkey : map recordKey (map finishStats (map snd m)) = map fst m).
  { rewrite !map_map. apply map_ext_in. intros [k e] Hin.
    destruct (Htal k e Hin) as (T1 & _). cbn. now rewrite T1. }
  split; [|split].
  - apply NoDup_ListNoDup. rewrite sort_perm, Hkey. now apply NoDup_ListNoDup.
  - intros sub Hsub. specialize (Hkeys sub Hsub). rewrite <- Hkey in Hkeys.
    apply in_map_iff in Hkeys. destruct Hkeys as (r & Hr & Hin).
    exists r. split; [|exact Hr].
    apply (Permutation_in _ (Permutation_sym (sort_perm _ _))). exact Hin.
  - intros r Hr. apply (Permutation_in _ (sort_perm _ _)) in Hr.
    rewrite map_map in Hr. apply in_map_iff in Hr. destruct Hr as ([k e] & <- & Hin).
    apply tallies_finish with k. now apply Htal.
Qed.

Lemma facilitatorStats_tallies_witness :
  FacilitatorStats.studentCount demoScienceStats
  = Z.of_nat (length (List.filter (keyed (recordKey demoScienceStats))
                        (allSubjects demoRun))).
Proof.
  destruct (facilitatorStats_tallies demoRun) as (_ & _ & H).
  destruct (H demoScienceStats) as (_ & _ & T & _).
  - vm_compute. left. reflexivity.
  - exact T.
Defined.

(** The comparator of the final sort of [calculateFacilitatorStats]. *)
Lemma before_byPercentage (a b : FacilitatorStats.t) :
  JS.before (fun a b => (FacilitatorStats.performancePercentage b
                         - FacilitatorStats.performancePercentage a)%Q) a b = true
  <-> (FacilitatorStats.performancePercentage b
       <= FacilitatorStats.performancePercentage a)%Q.
Proof. unfold JS.before. rewrite Qle_bool_iff. apply Qminus_nonpos. Qed.

(** The records come in descending order of their percentage: no record has
    a higher percentage than one before it. *)
Theorem facilitatorStats_descending (processedStudents : list ProcessedStudent.t)
    (i j : nat) (a b : FacilitatorStats.t) :
  (i < j)%nat ->
  calculateFacilitatorStats processedStudents !! i = Some a ->
  calculateFacilitatorStats processedStudents !! j = Some b ->
  (FacilitatorStats.performancePercentage b <= FacilitatorStats.performancePercentage a)%Q.
Proof.
  intros Hij Ha Hb. apply before_byPercentage.
  unfold calculateFacilitatorStats in Ha, Hb.
  refine (StronglySorted_lookup _ _ (sort_StronglySorted _ _ _ _) i j a b Hij Ha Hb).
  - intros x y. rewrite !before_byPercentage.
    destruct (Qlt_le_dec (FacilitatorStats.performancePercentage x)
                         (FacilitatorStats.performancePercentage y)) as [L|L];
      [right; now apply Qlt_le_weak|left; exact L].
  - intros x y z. rewrite !before_byPercentage. intros H1 H2.
    now apply Qle_trans with (FacilitatorStats.performancePercentage y).
Qed.

Lemma facilitatorStats_descending_witness :
  (FacilitatorStats.performancePercentage demoLastStats
   <= FacilitatorStats.performancePercentage demoScienceStats)%Q.
Proof.
  apply (facilitatorStats_descending demoRun 0 2 demoScienceStats demoLastStats).
  - lia.
  - vm_compute. reflexivity.
  - vm_compute. reflexivity.
Defined.



(** ** The class average of the aggregates *)

Lemma aggregate_sum_bounds (lo hi : Z) (l : list ProcessedStudent.t) (z : Z) :
  Forall (fun p => lo <= ProcessedStudent.bestSixAggregate p <= hi) l ->
  z + lo * Z.of_nat (length l)
  <= fold_left (fun sum st => sum + ProcessedStudent.bestSixAggregate st) l z
  <= z + hi * Z.of_nat (length l).
Proof.
  intros H. revert z. induction H as [|p r Hp Hr IH]; intros z; [cbn; lia|].
  cbn [fold_left length]. specialize (IH (z + ProcessedStudent.bestSixAggregate p)). lia.
Qed.

(** The class average of the aggregates is 0 for an empty list of records,
    and otherwise lies between any two bounds of the aggregates, such as the
    best and the worst aggregate of the class. *)
Theorem classAvgAggregate_bounds (lo hi : Z) (processed : list ProcessedStudent.t) :
  classAvgAggregate [] = 0%Q /\
  (processed <> [] ->
   Forall (fun p => lo <= ProcessedStudent.bestSixAggregate p <= hi) processed ->
   (inject_Z lo <= classAvgAggregate processed /\
    classAvgAggregate processed <= inject_Z hi)%Q).
Proof.
  split; [reflexivity|]. intros Hne H.
  destruct processed as [|p r]; [now elim Hne|].
  unfold classAvgAggregate.
  pose proof (aggregate_sum_bounds lo hi (p :: r) 0 H) as B.
  set (total := fold_left _ (p :: r) 0) in *.
  set (n := Z.of_nat (length (p :: r))) in *.
  assert (Hn : 0 < n) by (subst n; cbn [length]; lia).
  assert (Hq : (0 < inject_Z n)%Q) by (change 0%Q with (inject_Z 0); now rewrite <- Zlt_Qlt).
  destruct (Nat.ltb_spec 0 (length (p :: r))) as [_|Hl]; [|cbn in Hl; lia].
  split.
  - apply Qle_shift_div_l; [exact Hq|]. rewrite <- inject_Z_mult, <- Zle_Qle. lia.
  - apply Qle_shift_div_r; [exact Hq|]. rewrite <- inject_Z_mult, <- Zle_Qle. lia.
Qed.

Lemma classAvgAggregate_bounds_witness :
  (inject_Z 9 <= classAvgAggregate demoRun /\ classAvgAggregate demoRun <= inject_Z 14)%Q.
Proof.
  apply (proj2 (classAvgAggregate_bounds 9 14 demoRun)).
  - vm_compute. discriminate.
  - vm_compute. repeat constructor; discriminate.
Defined.

(** ** Score entry *)

Lemma map_lookup {A B : Type} (f : A -> B) (l : list A) (i : nat) :
  map f l !! i = f <$> l !! i.
Proof.
  revert i. induction l as [|x r IH]; intros [|i]; cbn; try reflexivity. apply IH.
Qed.

Lemma handleScoreChange_lookup (department selectedSubject : string)
    (scienceBaseScore : Q) (id : Z) (f : ScoreEntry.field) (value : JS.num)
    (students : list StudentData.t) (i : nat) (s : StudentData.t) :
  students !! i = Some s ->
  ScoreEntry.handleScoreChange department selectedSubject scienceBaseScore id f value
    students !! i
  = Some (if negb (StudentData.id s =? id) then s
          else if ScoreEntry.isEarlyChildhood department
               then ScoreEntry.enterEarlyScore selectedSubject
                      (match value with Some v => v | None => 0%Q end) s
               else ScoreEntry.enterSectionScore department selectedSubject
                      scienceBaseScore f
                      (match value with Some v => v | None => 0%Q end) s).
Proof.
  intros H. unfold ScoreEntry.handleScoreChange.
  destruct (ScoreEntry.isEarlyChildhood department); rewrite map_lookup, H; reflexivity.
Qed.

Lemma withScores_scores (s : StudentData.t) (scores : gmap string Q)
    (details : gmap string ScoreDetail.t) :
  StudentData.scores (ScoreEntry.withScores s scores details) = scores.
Proof. reflexivity. Qed.

Lemma withScores_details (s : StudentData.t) (scores : gmap string Q)
    (details : gmap string ScoreDetail.t) :
  ScoreEntry.detailsOf (ScoreEntry.withScores s scores details) = details.
Proof. reflexivity. Qed.

Lemma withScores_particulars (s : StudentData.t) (scores : gmap string Q)
    (details : gmap string ScoreDetail.t) :
  sameParticulars s (ScoreEntry.withScores s scores details).
Proof. repeat split. Qed.

(** Entering a score keeps the list of students as long as it was and
    touches only the students with the given id, and of these only the score
    and the score details of the selected subject. *)
Theorem handleScoreChange_frame (department selectedSubject : string)
    (scienceBaseScore : Q) (id : Z) (f : ScoreEntry.field) (value : JS.num)
    (students : list StudentData.t) :
  let next := ScoreEntry.handleScoreChange department selectedSubject
                scienceBaseScore id f value students in
  length next = length students /\
  (forall i s, students !! i = Some s ->
     exists s', next !! i = Some s' /\
       (StudentData.id s <> id -> s' = s) /\
       sameParticulars s s' /\
       (forall subject, subject <> selectedSubject ->
          StudentData.scores s' !! subject = StudentData.scores s !! subject /\
          ScoreEntry.detailsOf s' !! subject = ScoreEntry.detailsOf s !! subject)).
Proof.
  intros next. subst next. split.
  - unfold ScoreEntry.handleScoreChange.
    destruct (ScoreEntry.isEarlyChildhood department); apply length_map.
  - intros i s Hs. eexists.
    split; [apply (handleScoreChange_lookup _ _ _ _ _ _ _ _ _ Hs)|].
    destruct (Z.eqb_spec (StudentData.id s) id) as [E|E]; cbn [negb].
    + split; [intros H; contradiction|].
      unfold ScoreEntry.enterEarlyScore, ScoreEntry.enterSectionScore.
      destruct (ScoreEntry.isEarlyChildhood department);
        (split; [apply withScores_particulars|]); intros subject Hne;
        rewrite withScores_scores, withScores_details;
        rewrite !lookup_insert_ne by congruence; split; reflexivity.
    + split; [reflexivity|]. split; [repeat split|]. intros; split; reflexivity.
Qed.

Lemma handleScoreChange_frame_witness :
  length (ScoreEntry.handleScoreChange "Junior High School" "Science" 140 2
            ScoreEntry.SectionA (JS.fin 35) demoStudents)
  = length demoStudents.
Proof.
  apply (handleScoreChange_frame "Junior High School" "Science" 140 2
           ScoreEntry.SectionA (JS.fin 35) demoStudents).
Defined.

Lemma scienceDetails_withScores (s : StudentData.t) (scores : gmap string Q)
    (details : gmap string ScoreDetail.t) :
  scienceDetails (ScoreEntry.withScores s scores details) = details !! "Science".
Proof. reflexivity. Qed.

(** Entering a section mark outside the early-childhood departments: the
    student with the id gets the mark in the section named, keeps the other
    section (0 when there was no breakdown), and the total of both sections
    as the flat score of the subject.  The total is what the statistics pass
    and the per-student pass both use for this student and subject, except
    for Science with base 140 outside the Junior High School, where the
    stored total is the rounded raw sum while both passes take the sum
    scaled to 100. *)
Theorem handleScoreChange_section (department selectedSubject : string)
    (scienceBaseScore : Q) (id : Z) (f : ScoreEntry.field) (value : JS.num)
    (students : list StudentData.t) (i : nat) (s : StudentData.t) :
  ScoreEntry.isEarlyChildhood department = false ->
  students !! i = Some s ->
  StudentData.id s = id ->
  let numValue := match value with Some v => v | None => 0%Q end in
  let current := default (ScoreDetail.mk 0 0 0) (ScoreEntry.detailsOf s !! selectedSubject) in
  let a := match f with
           | ScoreEntry.SectionA => numValue
           | ScoreEntry.SectionB => ScoreDetail.sectionA current
           end in
  let b := match f with
           | ScoreEntry.SectionA => ScoreDetail.sectionB current
           | ScoreEntry.SectionB => numValue
           end in
  let scaled := ScoreEntry.isScience selectedSubject && ScoreEntry.isJHS department
                && Qeq_bool scienceBaseScore 140 in
  let total := if scaled then JS.Math_round ((a + b) / 140 * 100)%Q
               else JS.Math_round (a + b)%Q in
  exists s',
    ScoreEntry.handleScoreChange department selectedSubject scienceBaseScore id f value
      students !! i = Some s' /\
    ScoreEntry.detailsOf s' !! selectedSubject = Some (ScoreDetail.mk a b total) /\
    StudentData.scores s' !! selectedSubject = Some total /\
    statisticsScore scienceBaseScore selectedSubject s'
    = studentScore scienceBaseScore selectedSubject s' /\
    ((ScoreEntry.isScience selectedSubject = false \/ ScoreEntry.isJHS department = true
      \/ Qeq_bool scienceBaseScore 140 = false) ->
     (studentScore scienceBaseScore selectedSubject s' == total)%Q) /\
    (ScoreEntry.isScience selectedSubject = true -> ScoreEntry.isJHS department = false ->
     Qeq_bool scienceBaseScore 140 = true ->
     total = JS.Math_round (a + b)%Q /\
     studentScore scienceBaseScore selectedSubject s'
     = JS.Math_round ((a + b) / 140 * 100)%Q).
Proof.
  intros Hdept Hs Hid numValue current a b scaled total.
  exists (ScoreEntry.enterSectionScore department selectedSubject scienceBaseScore
            f numValue s).
  split.
  { rewrite (handleScoreChange_lookup _ _ _ _ _ _ _ _ _ Hs), Hid, Z.eqb_refl, Hdept.
    reflexivity. }
  unfold ScoreEntry.enterSectionScore. fold numValue. fold current.
  assert (Ea : ScoreDetail.sectionA (ScoreEntry.setField current f numValue) = a)
    by (destruct f; reflexivity).
  assert (Eb : ScoreDetail.sectionB (ScoreEntry.setField current f numValue) = b)
    by (destruct f; reflexivity).
  rewrite Ea, Eb. fold scaled. fold total. cbn [ScoreDetail.total].
  rewrite withScores_details, withScores_scores, !lookup_insert_eq.
  split; [reflexivity|]. split; [reflexivity|].
  unfold statisticsScore, studentScore. rewrite scienceDetails_withScores, withScores_scores.
  rewrite lookup_insert_eq.
  unfold ScoreEntry.isScience in *.
  destruct (String.eqb_spec selectedSubject "Science") as [->|Hne].
  - rewrite lookup_insert_eq. cbn [ScoreDetail.sectionA ScoreDetail.sectionB].
    split; [reflexivity|]. subst total scaled. cbn [andb]. split.
    + intros [H|[H|H]]; [discriminate H| |].
      * rewrite H. cbn [andb]. destruct (Qeq_bool scienceBaseScore 140); reflexivity.
      * rewrite H, andb_false_r. reflexivity.
    + intros _ Hj Hb. rewrite Hj, Hb. cbn [andb]. split; reflexivity.
  - split; [reflexivity|]. split; [|intros H; discriminate H].
    intros _. apply num_or_default.
Qed.

Lemma handleScoreChange_section_witness :
  exists s',
    ScoreEntry.handleScoreChange "Junior High School" "Science" 140 2
      ScoreEntry.SectionA (JS.fin 35) demoStudents !! 1%nat = Some s' /\
    StudentData.scores s' !! "Science" = Some 61%Q.
Proof.
  destruct (handleScoreChange_section "Junior High School" "Science" 140 2
              ScoreEntry.SectionA (JS.fin 35) demoStudents 1 kofi)
    as (s' & H1 & _ & H3 & _); try reflexivity.
  exists s'. split; [exact H1|exact H3].
Defined.



